(** * SQL explanation pipeline: flattening, request building, reconciliation

    A shallow embedding of
    [wren-ai-service/src/pipelines/generation/sql_explanation.py], and of
    the column and model builders of [wren-ai-service/eval/preparation.py].

    Python dictionaries with a fixed set of keys are records, optional keys
    are [option] fields, tagged dictionaries ([{"type": ...}]) are inductive
    types, decoded JSON of unknown shape is the type [json], and the two
    places where the program mutates a list in place (the relation
    collector and the reconciler's [results]) thread the lists explicitly. *)

From Stdlib Require Import Strings.String Strings.Ascii.
From Stdlib Require Import Lists.List.
From Stdlib Require Import ZArith.ZArith.
From Stdlib Require Import Arith.PeanoNat.
From Stdlib Require Import Bool.Bool.
From Stdlib Require Import micromega.Lia.
Import ListNotations.

Set Warnings "-register-all".

Local Open Scope list_scope.
Local Open Scope string_scope.

(* ================================================================== *)
(** ** Python values *)
(* ================================================================== *)

Module Py.

(** [d.get(key, default)] on an optional field. *)
Definition get_default {A : Type} (field : option A) (default : A) : A :=
  match field with
  | Some v => v
  | None => default
  end.

(** The value stored under [key] in a dictionary kept as its items. *)
Fixpoint lookup {V : Type} (key : string) (kvs : list (string * V))
  : option V :=
  match kvs with
  | [] => None
  | (k, v) :: rest => if String.eqb key k then Some v else lookup key rest
  end.

(** [s.endswith(suffix)]. *)
Definition endswith (s suffix : string) : bool :=
  let n := String.length s in
  let m := String.length suffix in
  (m <=? n)%nat && String.eqb (substring (n - m) m s) suffix.

Definition quote1 : ascii := ascii_of_nat 39.
Definition quote2 : ascii := ascii_of_nat 34.
Definition backslash : ascii := ascii_of_nat 92.

Definition has_char (c : ascii) (s : string) : bool :=
  existsb (Ascii.eqb c) (list_ascii_of_string s).

(** CPython's [unicode_repr] picks the double quote only when the text
    holds a single quote and no double quote. *)
Definition repr_quote (s : string) : ascii :=
  if has_char quote1 s && negb (has_char quote2 s) then quote2 else quote1.

Definition hex_digit (n : nat) : ascii :=
  if (n <? 10)%nat then ascii_of_nat (48 + n) else ascii_of_nat (87 + n).

Definition char1 (c : ascii) : string := String c EmptyString.

(** One character of [repr(str)].  Exact on ASCII text.  A byte from 128
    up belongs to the UTF-8 encoding of a code point beyond ASCII and is
    copied: that is what [repr] does for printable code points; the
    non-printable ones (such as U+00A0), which [repr] writes as an
    escape, are outside this model. *)
Definition repr_char (q c : ascii) : string :=
  let n := nat_of_ascii c in
  if Ascii.eqb c q || Ascii.eqb c backslash then String backslash (char1 c)
  else if (n =? 9)%nat then String backslash "t"
  else if (n =? 10)%nat then String backslash "n"
  else if (n =? 13)%nat then String backslash "r"
  else if (n <? 32)%nat || (n =? 127)%nat
       then String backslash
              (String "x" (String (hex_digit (n / 16)) (char1 (hex_digit (n mod 16)))))
  else char1 c.

(** Number of bytes of the UTF-8 encoding that starts with byte [c]. *)
Definition utf8_width (c : ascii) : nat :=
  let n := nat_of_ascii c in
  if (n <? 192)%nat then 1
  else if (n <? 224)%nat then 2
  else if (n <? 240)%nat then 3
  else 4.

Definition flush (current : string) : list string :=
  match current with
  | EmptyString => []
  | _ => [current]
  end.

(** The characters of a [str], each as the text of its UTF-8 bytes:
    [pending] bytes are still owed to [current]. *)
Fixpoint split_code_points (s : string) (pending : nat) (current : string)
  : list string :=
  match s with
  | EmptyString => flush current
  | String c rest =>
      match pending with
      | S k => split_code_points rest k (current ++ char1 c)
      | O =>
          (flush current
           ++ split_code_points rest (utf8_width c - 1) (char1 c))%list
      end
  end.

(** What iterating over a [str] yields, and what [s[i]] indexes. *)
Definition code_points (s : string) : list string :=
  split_code_points s 0 EmptyString.

(** [repr(s)] of a Python [str]. *)
Definition repr_str (s : string) : string :=
  let q := repr_quote s in
  String q
    (String.concat EmptyString (map (repr_char q) (list_ascii_of_string s))
     ++ char1 q).

End Py.

(** Decoded JSON, what [orjson.loads] returns.  A dictionary keeps its
    items in document order. *)
Inductive json : Type :=
| JNull
| JBool (b : bool)
| JNum (z : Z)
| JStr (s : string)
| JList (items : list json)
| JDict (items : list (string * json)).

(** Exceptions the pipeline can meet; all derive from [Exception]. *)
Inductive exn : Type :=
| KeyError
| IndexError
| TypeError
| AttributeError
| JSONDecodeError
| TimeoutError.

(* ================================================================== *)
(** ** Explanation units *)
(* ================================================================== *)

(** The dictionary [{"values": v, "id": i}] every flattener emits. *)
Record ExplanationUnit (V : Type) : Type := mkUnit {
  values : V;
  id : string
}.
Arguments mkUnit {V} _ _.
Arguments values {V} _.
Arguments id {V} _.

(* ================================================================== *)
(** ** Filter trees *)
(* ================================================================== *)

Inductive bool_op : Type := AND | OR.

Definition op_name (op : bool_op) : string :=
  match op with
  | AND => "AND"
  | OR => "OR"
  end.

(** A filter node: [EXPR] leaf, [AND]/[OR] node, or a node whose ["type"]
    is none of the three. *)
Inductive filter_analysis : Type :=
| EXPR (node : string) (fid : option string)
| BoolExpr (op : bool_op) (left_node right_node : filter_analysis)
    (fid : option string)
| UnknownFilter (type : string) (fid : option string).

(** The flattener returns a bare [str] from a leaf below the top and a
    dictionary everywhere else. *)
Inductive filter_result : Type :=
| FText (s : string)
| FUnit (u : ExplanationUnit string).

(** [str(x)], as an f-string formats [x]: a [str] as it is, a dictionary
    through [repr] of its keys and values. *)
Definition format_filter_result (x : filter_result) : string :=
  match x with
  | FText s => s
  | FUnit u =>
      "{'values': " ++ Py.repr_str (values u)
      ++ ", 'id': " ++ Py.repr_str (id u) ++ "}"
  end.

Fixpoint _compose_sql_expression_of_filter_type
  (filter_analysis : filter_analysis) (top : bool) : filter_result :=
  match filter_analysis with
  | EXPR node fid =>
      if top then FUnit (mkUnit node (Py.get_default fid EmptyString))
      else FText node
  | BoolExpr op left_node right_node fid =>
      let left_expr := _compose_sql_expression_of_filter_type left_node false in
      let right_expr := _compose_sql_expression_of_filter_type right_node false in
      FUnit (mkUnit
               (format_filter_result left_expr ++ " " ++ op_name op ++ " "
                ++ format_filter_result right_expr)
               (Py.get_default fid EmptyString))
  | UnknownFilter _ _ => FUnit (mkUnit EmptyString EmptyString)
  end.

(** The spec's rendering: leaf expressions in order, operator names
    between them, single spaces, no parentheses. *)
Fixpoint infix_concatenation (f : filter_analysis) : string :=
  match f with
  | EXPR node _ => node
  | BoolExpr op left_node right_node _ =>
      infix_concatenation left_node ++ " " ++ op_name op ++ " "
      ++ infix_concatenation right_node
  | UnknownFilter _ _ => EmptyString
  end.

(** Trees built only from [EXPR] leaves and [AND]/[OR] nodes. *)
Fixpoint expr_and_or_only (f : filter_analysis) : bool :=
  match f with
  | EXPR _ _ => true
  | BoolExpr _ left_node right_node _ =>
      expr_and_or_only left_node && expr_and_or_only right_node
  | UnknownFilter _ _ => false
  end.

Definition is_leaf (f : filter_analysis) : bool :=
  match f with
  | EXPR _ _ => true
  | _ => false
  end.

Definition root_id (f : filter_analysis) : option string :=
  match f with
  | EXPR _ fid => fid
  | BoolExpr _ _ _ fid => fid
  | UnknownFilter _ fid => fid
  end.

(* ================================================================== *)
(** ** Group-by keys and sortings *)
(* ================================================================== *)

Record groupby_key : Type := mkGroupbyKey {
  gk_expression : string;
  gk_id : option string
}.

Definition _compose_sql_expression_of_groupby_type
  (groupby_keys : list (list groupby_key)) : list (ExplanationUnit string) :=
  flat_map
    (fun groupby_key_list =>
       map (fun groupby_key =>
              mkUnit (gk_expression groupby_key)
                     (Py.get_default (gk_id groupby_key) EmptyString))
           groupby_key_list)
    groupby_keys.

Record sorting : Type := mkSorting {
  so_expression : string;
  ordering : string;
  so_id : option string
}.

Definition _compose_sql_expression_of_sortings_type
  (sortings : list sorting) : list (ExplanationUnit string) :=
  map (fun sorting =>
         mkUnit (so_expression sorting ++ " " ++ ordering sorting)
                (Py.get_default (so_id sorting) EmptyString))
      sortings.

(* ================================================================== *)
(** ** Relation trees *)
(* ================================================================== *)

Record expr_source : Type := mkExprSource {
  es_expression : string;
  sourceDataset : string;
  sourceColumn : string
}.

Inductive join_kind : Type :=
| INNER_JOIN | LEFT_JOIN | RIGHT_JOIN | FULL_JOIN | CROSS_JOIN | IMPLICIT_JOIN.

Definition join_name (k : join_kind) : string :=
  match k with
  | INNER_JOIN => "INNER_JOIN"
  | LEFT_JOIN => "LEFT_JOIN"
  | RIGHT_JOIN => "RIGHT_JOIN"
  | FULL_JOIN => "FULL_JOIN"
  | CROSS_JOIN => "CROSS_JOIN"
  | IMPLICIT_JOIN => "IMPLICIT_JOIN"
  end.

Inductive relation : Type :=
| TABLE (tableName : string) (rid : option string)
| JOIN (kind : join_kind) (criteria : string) (exprSources : list expr_source)
    (left_rel right_rel : relation) (rid : option string)
| SUBQUERY (rid : option string).

(** [relation["type"]]. *)
Definition relation_type (r : relation) : string :=
  match r with
  | TABLE _ _ => "TABLE"
  | JOIN kind _ _ _ _ _ => join_name kind
  | SUBQUERY _ => "SUBQUERY"
  end.

(** The ["values"] of a relation unit. *)
Inductive relation_values : Type :=
| TableValues (type tableName : string)
| JoinValues (type criteria : string) (exprSources : list expr_source).

(** An element of one of the two lists the collector works on: the
    caller's CTE names are [str], what the collector appends is a unit. *)
Inductive list_item : Type :=
| Name (s : string)
| Unit (u : ExplanationUnit relation_values).

(** [x in items] for a [str] [x]: equal to some element; a [str] never
    equals a dictionary. *)
Definition name_in (x : string) (items : list list_item) : bool :=
  existsb (fun item => match item with
                       | Name s => String.eqb x s
                       | Unit _ => false
                       end) items.

Definition _is_subquery_or_has_subquery_child (relation : relation) : bool :=
  if String.eqb (relation_type relation) "SUBQUERY" then true
  else if Py.endswith (relation_type relation) "_JOIN" then
    match relation with
    | JOIN _ _ _ left_rel right_rel _ =>
        if String.eqb (relation_type left_rel) "SUBQUERY"
           || String.eqb (relation_type right_rel) "SUBQUERY"
        then true else false
    | _ => false
    end
  else false.

Definition table_unit (relation : relation) (tableName : string)
  (rid : option string) : list_item :=
  Unit (mkUnit (TableValues (relation_type relation) tableName)
               (Py.get_default rid EmptyString)).

Definition join_unit (relation : relation) (criteria : string)
  (exprSources : list expr_source) (rid : option string) : list_item :=
  Unit (mkUnit
          (JoinValues (relation_type relation) criteria
             (map (fun expr_source =>
                     mkExprSource (es_expression expr_source)
                                  (sourceDataset expr_source)
                                  (sourceColumn expr_source))
                  exprSources))
          (Py.get_default rid EmptyString)).

(** [_collect_relations(relation, result, cte_names, top_level)].  Both
    lists are mutated in place by the program; the function returns them
    as they are when the call ends, [result] first.  The two recursive
    calls are written as in the source: [cte_names] is passed in the
    position of [result] and [result] in the position of [cte_names]. *)
Fixpoint _collect_relations (relation : relation)
  (result cte_names : list list_item) (top_level : bool)
  : list list_item * list list_item :=
  if _is_subquery_or_has_subquery_child relation then (result, cte_names)
  else
    match relation with
    | TABLE tableName rid =>
        if String.eqb (relation_type relation) "TABLE" && top_level then
          if name_in tableName cte_names then (result, cte_names)
          else ((result ++ [table_unit relation tableName rid])%list, cte_names)
        else (result, cte_names)
    | JOIN _ criteria exprSources left_rel right_rel rid =>
        if Py.endswith (relation_type relation) "_JOIN" then
          let result :=
            (result ++ [join_unit relation criteria exprSources rid])%list in
          let '(cte_names, result) :=
            _collect_relations left_rel cte_names result false in
          let '(cte_names, result) :=
            _collect_relations right_rel cte_names result false in
          (result, cte_names)
        else (result, cte_names)
    | SUBQUERY _ => (result, cte_names)
    end.

(** Returns the list [results] and the caller's [cte_names] list as the
    call leaves it. *)
Definition _compose_sql_expression_of_relation_type
  (relation : relation) (cte_names : list list_item)
  : list list_item * list list_item :=
  _collect_relations relation [] cte_names true.

(** The spec's count: all join nodes of the tree ... *)
Fixpoint count_joins (r : relation) : nat :=
  match r with
  | JOIN _ _ _ left_rel right_rel _ =>
      S (count_joins left_rel + count_joins right_rel)
  | _ => 0
  end.

(** ... plus the root when it is a [TABLE] that is no CTE name. *)
Definition count_top_level_tables (r : relation) (cte_names : list list_item)
  : nat :=
  match r with
  | TABLE tableName _ => if name_in tableName cte_names then 0 else 1
  | _ => 0
  end.

Fixpoint has_subquery (r : relation) : bool :=
  match r with
  | TABLE _ _ => false
  | JOIN _ _ _ left_rel right_rel _ =>
      has_subquery left_rel || has_subquery right_rel
  | SUBQUERY _ => true
  end.

(** What a call appends to its own [result] list ([own_units]) and to
    the other list ([other_units]), in order. *)
Fixpoint own_units (r : relation) : list list_item :=
  if _is_subquery_or_has_subquery_child r then []
  else
    match r with
    | JOIN _ criteria exprSources left_rel right_rel rid =>
        (join_unit r criteria exprSources rid
           :: other_units left_rel ++ other_units right_rel)%list
    | _ => []
    end
with other_units (r : relation) : list list_item :=
  if _is_subquery_or_has_subquery_child r then []
  else
    match r with
    | JOIN _ _ _ left_rel right_rel _ =>
        (own_units left_rel ++ own_units right_rel)%list
    | _ => []
    end.

(** The unit of a root that is a [TABLE] and no CTE name. *)
Definition top_table_units (r : relation) (cte_names : list list_item)
  : list list_item :=
  match r with
  | TABLE tableName rid =>
      if name_in tableName cte_names then []
      else [table_unit r tableName rid]
  | _ => []
  end.

(** Join nodes at even depth (the root has depth 0) and at odd depth. *)
Fixpoint joins_even (r : relation) : nat :=
  match r with
  | JOIN _ _ _ left_rel right_rel _ =>
      S (joins_odd left_rel + joins_odd right_rel)
  | _ => 0
  end
with joins_odd (r : relation) : nat :=
  match r with
  | JOIN _ _ _ left_rel right_rel _ =>
      joins_even left_rel + joins_even right_rel
  | _ => 0
  end.

(* ================================================================== *)
(** ** Select items *)
(* ================================================================== *)

Record select_properties : Type := mkProperties {
  includeFunctionCall : string;
  includeMathematicalOperation : string
}.

Record select_item : Type := mkSelectItem {
  alias : string;
  si_expression : string;
  properties : select_properties;
  si_exprSources : option (list expr_source);
  si_id : option string
}.

Record data_source : Type := mkDataSource {
  ds_sourceDataset : string;
  ds_sourceColumn : string
}.

(** The ["values"] of a select unit. *)
Record select_values : Type := mkSelectValues {
  sv_alias : string;
  sv_expression : string
}.

Record select_result : Type := mkSelectResult {
  withFunctionCallOrMathematicalOperation
    : list (ExplanationUnit select_values);
  withoutFunctionCallOrMathematicalOperation
    : list (ExplanationUnit select_values)
}.

(** The condition of the innermost [if]: the key is there, the list is
    not empty, and its first entry names the data source's dataset and
    column. *)
Definition same_source (select_item : select_item) (data_source : data_source)
  : bool :=
  match si_exprSources select_item with
  | None => false
  | Some [] => false
  | Some (first :: _) =>
      String.eqb (sourceDataset first) (ds_sourceDataset data_source)
      && String.eqb (sourceColumn first) (ds_sourceColumn data_source)
  end.

(** The inner [for] with its [return True]. *)
Fixpoint existed_in_data_source (select_item : select_item)
  (selected_data_source : list data_source) : bool :=
  match selected_data_source with
  | [] => false
  | data_source :: rest =>
      if same_source select_item data_source then true
      else existed_in_data_source select_item rest
  end.

Fixpoint _is_select_item_existed_in_selected_data_sources
  (select_item : select_item) (selected_data_sources : list (list data_source))
  : bool :=
  match selected_data_sources with
  | [] => false
  | selected_data_source :: rest =>
      if existed_in_data_source select_item selected_data_source then true
      else _is_select_item_existed_in_selected_data_sources select_item rest
  end.

Definition select_unit (select_item : select_item)
  : ExplanationUnit select_values :=
  mkUnit (mkSelectValues (alias select_item) (si_expression select_item))
         (Py.get_default (si_id select_item) EmptyString).

Definition has_function_call_or_math (select_item : select_item) : bool :=
  String.eqb (includeFunctionCall (properties select_item)) "true"
  || String.eqb (includeMathematicalOperation (properties select_item)) "true".

(** One turn of the [for select_item in select_items] loop on [result]. *)
Definition select_step (selected_data_sources : list (list data_source))
  (result : select_result) (select_item : select_item) : select_result :=
  if negb (_is_select_item_existed_in_selected_data_sources
             select_item selected_data_sources)
  then
    if has_function_call_or_math select_item then
      mkSelectResult
        (withFunctionCallOrMathematicalOperation result
           ++ [select_unit select_item])%list
        (withoutFunctionCallOrMathematicalOperation result)
    else
      mkSelectResult
        (withFunctionCallOrMathematicalOperation result)
        (withoutFunctionCallOrMathematicalOperation result
           ++ [select_unit select_item])%list
  else result.

Definition _compose_sql_expression_of_select_type
  (select_items : list select_item)
  (selected_data_sources : list (list data_source)) : select_result :=
  fold_left (select_step selected_data_sources) select_items
            (mkSelectResult [] []).

(** The spec's reading of "retained": no expression source to look at,
    or the first one matches no entry of the selected data sources. *)
Definition retained (selected_data_sources : list (list data_source))
  (select_item : select_item) : bool :=
  match si_exprSources select_item with
  | None => true
  | Some [] => true
  | Some (first :: _) =>
      forallb
        (fun data_source =>
           negb (String.eqb (sourceDataset first) (ds_sourceDataset data_source)
                 && String.eqb (sourceColumn first)
                               (ds_sourceColumn data_source)))
        (concat selected_data_sources)
  end.

(* ================================================================== *)
(** ** Analysis composer: [SQLAnalysisPreprocessor.run] *)
(* ================================================================== *)

(** One raw analysis result; every key is optional. *)
Record sql_analysis_result : Type := mkAnalysis {
  isSubqueryOrCte : option bool;
  ar_filter : option filter_analysis;
  ar_groupByKeys : option (list (list groupby_key));
  ar_relation : option relation;
  ar_selectItems : option (list select_item);
  ar_sortings : option (list sorting)
}.

(** One bundle.  [None] in [p_filter] is the empty dictionary. *)
Record preprocessed_sql_analysis_result : Type := mkBundle {
  p_filter : option (ExplanationUnit string);
  p_groupByKeys : list (ExplanationUnit string);
  p_relation : list list_item;
  p_selectItems : select_result;
  p_sortings : list (ExplanationUnit string)
}.

(** The top-level call of the filter flattener always returns a
    dictionary. *)
Definition filter_unit (r : filter_result) : option (ExplanationUnit string) :=
  match r with
  | FUnit u => Some u
  | FText _ => None
  end.

(** One fragment that is not a subquery or CTE; the caller's [cte_names]
    list is threaded through the relation flattener. *)
Definition preprocess_one (cte_names : list list_item)
  (selected_data_sources : list (list data_source))
  (sql_analysis_result : sql_analysis_result)
  : preprocessed_sql_analysis_result * list list_item :=
  let filter :=
    match ar_filter sql_analysis_result with
    | Some f => filter_unit (_compose_sql_expression_of_filter_type f true)
    | None => None
    end in
  let groupByKeys :=
    match ar_groupByKeys sql_analysis_result with
    | Some g => _compose_sql_expression_of_groupby_type g
    | None => []
    end in
  let '(relation, cte_names) :=
    match ar_relation sql_analysis_result with
    | Some r => _compose_sql_expression_of_relation_type r cte_names
    | None => ([], cte_names)
    end in
  let selectItems :=
    match ar_selectItems sql_analysis_result with
    | Some s => _compose_sql_expression_of_select_type s selected_data_sources
    | None => mkSelectResult [] []
    end in
  let sortings :=
    match ar_sortings sql_analysis_result with
    | Some s => _compose_sql_expression_of_sortings_type s
    | None => []
    end in
  (mkBundle filter groupByKeys relation selectItems sortings, cte_names).

(** [SQLAnalysisPreprocessor.run]: the bundles, and [cte_names] as the
    run leaves it. *)
Fixpoint SQLAnalysisPreprocessor_run (cte_names : list list_item)
  (selected_data_sources : list (list data_source))
  (sql_analysis_results : list sql_analysis_result)
  : list preprocessed_sql_analysis_result * list list_item :=
  match sql_analysis_results with
  | [] => ([], cte_names)
  | sql_analysis_result :: rest =>
      if negb (Py.get_default (isSubqueryOrCte sql_analysis_result) false)
      then
        let '(bundle, cte_names) :=
          preprocess_one cte_names selected_data_sources sql_analysis_result in
        let '(bundles, cte_names) :=
          SQLAnalysisPreprocessor_run cte_names selected_data_sources rest in
        (bundle :: bundles, cte_names)
      else
        SQLAnalysisPreprocessor_run cte_names selected_data_sources rest
  end.

(* ================================================================== *)
(** ** Prompt request builder: [prompts] *)
(* ================================================================== *)

(** A value stored in a bundle, as [dict.items()] yields it. *)
Inductive bundle_value : Type :=
| VFilter (u : option (ExplanationUnit string))
| VTexts (l : list (ExplanationUnit string))
| VItems (l : list list_item)
| VSelect (s : select_result).

(** Insertion order of the preprocessor. *)
Definition items (p : preprocessed_sql_analysis_result)
  : list (string * bundle_value) :=
  [ ("filter", VFilter (p_filter p));
    ("groupByKeys", VTexts (p_groupByKeys p));
    ("relation", VItems (p_relation p));
    ("selectItems", VSelect (p_selectItems p));
    ("sortings", VTexts (p_sortings p)) ].

(** [len(value)]: a list has its elements, a dictionary its keys; a
    filter unit has the keys [values] and [id], the select result always
    has its two keys. *)
Definition py_len (value : bundle_value) : nat :=
  match value with
  | VFilter None => 0
  | VFilter (Some _) => 2
  | VTexts l => List.length l
  | VItems l => List.length l
  | VSelect _ => 2
  end.

(** [if value:] on a container. *)
Definition is_true (value : bundle_value) : bool :=
  negb (py_len value =? 0)%nat.

(** The bare values of one category. *)
Inductive values_only : Type :=
| OnlyText (s : string)
| OnlyTexts (l : list string)
| OnlyRelations (l : list relation_values)
| OnlySelect (w wo : list select_values).

(** [v["values"]] on an element of the relation list. *)
Definition item_values (item : list_item) : exn + relation_values :=
  match item with
  | Unit u => inr (values u)
  | Name _ => inl TypeError
  end.

Fixpoint map_result {A B : Type} (f : A -> exn + B) (l : list A)
  : exn + list B :=
  match l with
  | [] => inr []
  | a :: rest =>
      match f a with
      | inl e => inl e
      | inr b =>
          match map_result f rest with
          | inl e => inl e
          | inr bs => inr (b :: bs)
          end
      end
  end.

(** The dictionary [{key: ...}] appended for a category with a true
    value. *)
Definition strip_ids (key : string) (value : bundle_value)
  : exn + values_only :=
  if negb (String.eqb key "selectItems") then
    match value with
    | VTexts l => inr (OnlyTexts (map values l))
    | VItems l =>
        match map_result item_values l with
        | inl e => inl e
        | inr vs => inr (OnlyRelations vs)
        end
    | VFilter (Some u) => inr (OnlyText (values u))
    | VFilter None => inl KeyError
    | VSelect _ => inl KeyError
    end
  else
    match value with
    | VSelect s =>
        inr (OnlySelect
               (map values (withFunctionCallOrMathematicalOperation s))
               (map values (withoutFunctionCallOrMathematicalOperation s)))
    | VFilter _ => inl KeyError
    | _ => inl TypeError
    end.

Definition get_sql_explanation_prompt_given_analysis_type
  (sql_analysis_type : string) : string :=
  if String.eqb sql_analysis_type "filter" then
    "Explain the filter condition in the SQL query."
  else if String.eqb sql_analysis_type "groupByKeys" then
    "Explain the group by keys in the SQL query."
  else if String.eqb sql_analysis_type "relation" then
    "Explain the relation in the SQL query."
  else if String.eqb sql_analysis_type "selectItems" then
    "Explain the select items in the SQL query."
  else if String.eqb sql_analysis_type "sortings" then
    "Explain the sortings in the SQL query."
  else EmptyString.

(** The two lists the loops of [prompts] fill. *)
Definition collected : Type :=
  (list string * list (string * values_only))%type.

(** The inner loop, over the items of one bundle. *)
Fixpoint collect_items (kvs : list (string * bundle_value)) (acc : collected)
  : exn + collected :=
  match kvs with
  | [] => inr acc
  | (key, value) :: rest =>
      if is_true value then
        match strip_ids key value with
        | inl e => inl e
        | inr v =>
            collect_items rest
              ((fst acc ++ [key])%list, (snd acc ++ [(key, v)])%list)
        end
      else collect_items rest acc
  end.

(** The outer loop, over the bundles. *)
Fixpoint collect_bundles (bundles : list preprocessed_sql_analysis_result)
  (acc : collected) : exn + collected :=
  match bundles with
  | [] => inr acc
  | p :: rest =>
      match collect_items (items p) acc with
      | inl e => inl e
      | inr acc' => collect_bundles rest acc'
      end
  end.

(** The keyword arguments of one [prompt_builder.run] call. *)
Record ExplanationRequest : Type := mkRequest {
  question : string;
  sql : string;
  sql_analysis_result_arg : string * values_only;
  explanation_hint : string;
  sql_summary : string
}.

Definition category (r : ExplanationRequest) : string :=
  fst (sql_analysis_result_arg r).

Section PromptBuilder.

(** The prompt template renderer, an external collaborator. *)
Variable Prompt : Type.
Variable prompt_builder_run : ExplanationRequest -> Prompt.

(** The requests, before rendering. *)
Definition requests (question sql : string)
  (preprocess : list preprocessed_sql_analysis_result) (sql_summary : string)
  : exn + list ExplanationRequest :=
  match collect_bundles preprocess ([], []) with
  | inl e => inl e
  | inr (sql_analysis_types, preprocessed_sql_analysis_results_with_values) =>
      inr (map (fun '(sql_analysis_type, sql_analysis_result) =>
                  mkRequest question sql sql_analysis_result
                    (get_sql_explanation_prompt_given_analysis_type
                       sql_analysis_type)
                    sql_summary)
               (combine sql_analysis_types
                        preprocessed_sql_analysis_results_with_values))
  end.

Definition prompts (question sql : string)
  (preprocess : list preprocessed_sql_analysis_result) (sql_summary : string)
  : exn + list Prompt :=
  match requests question sql preprocess sql_summary with
  | inl e => inl e
  | inr rs => inr (map prompt_builder_run rs)
  end.

End PromptBuilder.

(* ================================================================== *)
(** ** Result reconciler: [SQLExplanationGenerationPostProcessor.run] *)
(* ================================================================== *)

Module Json.

(** [x[key]] for a [str] key. *)
Definition getitem (x : json) (key : string) : exn + json :=
  match x with
  | JDict kvs =>
      match Py.lookup key kvs with
      | Some v => inr v
      | None => inl KeyError
      end
  | _ => inl TypeError
  end.

(** [x[0]]. *)
Definition getitem0 (x : json) : exn + json :=
  match x with
  | JList [] => inl IndexError
  | JList (v :: _) => inr v
  | JStr s =>
      match Py.code_points s with
      | [] => inl IndexError
      | c :: _ => inr (JStr c)
      end
  | JDict _ => inl KeyError
  | _ => inl TypeError
  end.

(** [x.get(key, default)]; only a dictionary has the method. *)
Definition get (x : json) (key : string) (default : json) : exn + json :=
  match x with
  | JDict kvs => inr (Py.get_default (Py.lookup key kvs) default)
  | _ => inl AttributeError
  end.

(** Truth value of decoded JSON. *)
Definition truthy (x : json) : bool :=
  match x with
  | JNull => false
  | JBool b => b
  | JNum z => negb (z =? 0)%Z
  | JStr s => negb (String.eqb s EmptyString)
  | JList l => negb (List.length l =? 0)%nat
  | JDict kvs => negb (List.length kvs =? 0)%nat
  end.

(** What [zip] draws from its argument: the elements of a list, the
    characters of a [str], the keys of a dictionary. *)
Definition iterate (x : json) : exn + list json :=
  match x with
  | JList l => inr l
  | JStr s => inr (map JStr (Py.code_points s))
  | JDict kvs => inr (map (fun kv => JStr (fst kv)) kvs)
  | _ => inl TypeError
  end.

End Json.

Definition _extract_to_str (data : json) : json :=
  match data with
  | JList (first :: _) => first
  | JStr s => JStr s
  | _ => JStr EmptyString
  end.

(** The payload of a record, by shape. *)
Inductive payload : Type :=
| ExpressionPayload (pid expression : string) (explanation : json)
| RelationPayload (pid : string) (rv : relation_values) (explanation : json)
| SelectPayload (pid : string) (sv : select_values)
    (isFunctionCallOrMathematicalOperation : bool) (explanation : json).

Record ExplanationRecord : Type := mkRecord {
  rec_type : string;
  rec_payload : payload
}.

(** Computations of the [try] block: the list [results] is the state, and
    it keeps what was appended when an exception is raised. *)
Definition M (A : Type) : Type :=
  list ExplanationRecord -> list ExplanationRecord * (exn + A).

Definition ret {A : Type} (a : A) : M A := fun results => (results, inr a).

Definition raise {A : Type} (e : exn) : M A := fun results => (results, inl e).

Definition bind {A B : Type} (m : M A) (k : A -> M B) : M B :=
  fun results =>
    match m results with
    | (results', inl e) => (results', inl e)
    | (results', inr a) => k a results'
    end.

Definition lift {A : Type} (x : exn + A) : M A :=
  match x with
  | inl e => raise e
  | inr a => ret a
  end.

(** [results.append(r)] and [results += rs]. *)
Definition append (r : ExplanationRecord) : M unit :=
  fun results => ((results ++ [r])%list, inr tt).

Definition extend (rs : list ExplanationRecord) : M unit :=
  fun results => ((results ++ rs)%list, inr tt).

Declare Scope reconcile_scope.
Delimit Scope reconcile_scope with reconcile.
Notation "x <- c1 ;; c2" := (bind c1 (fun x => c2))
  (at level 61, c1 at next level, right associativity) : reconcile_scope.

(** A [for] loop whose body may raise. *)
Fixpoint for_each {A : Type} (l : list A) (body : A -> M unit) : M unit :=
  match l with
  | [] => ret tt
  | a :: rest => bind (body a) (fun _ => for_each rest body)
  end.

(** [a and b] under [if]: [b] is evaluated only when [a] is true. *)
Definition and_then (a : bool) (b : exn + json) : M bool :=
  if a then
    match b with
    | inl e => raise e
    | inr v => ret (Json.truthy v)
    end
  else ret false.

Definition expression_record (type : string) (u : ExplanationUnit string)
  (sql_explanation : json) : ExplanationRecord :=
  mkRecord type
    (ExpressionPayload (id u) (values u) (_extract_to_str sql_explanation)).

Definition relation_record (u : ExplanationUnit relation_values)
  (sql_explanation : json) : ExplanationRecord :=
  mkRecord "relation"
    (RelationPayload (id u) (values u) (_extract_to_str sql_explanation)).

Definition select_record (flag : bool) (u : ExplanationUnit select_values)
  (sql_explanation : json) : ExplanationRecord :=
  mkRecord "selectItems"
    (SelectPayload (id u) (values u) flag (_extract_to_str sql_explanation)).

(** The body of the relation loop: [relation["id"]] needs a dictionary. *)
Definition append_relation (pair : list_item * json) : M unit :=
  match fst pair with
  | Unit u => append (relation_record u (snd pair))
  | Name _ => raise TypeError
  end.

Section Reconciler.

(** [orjson.loads] on text: [None] when it raises [JSONDecodeError]. *)
Variable loads : string -> option json.

Definition orjson_loads (x : json) : exn + json :=
  match x with
  | JStr s =>
      match loads s with
      | Some v => inr v
      | None => inl JSONDecodeError
      end
  | _ => inl JSONDecodeError
  end.

(** [orjson.loads(generate["replies"][0])["results"]]. *)
Definition parse_reply (generate : json) : exn + json :=
  match Json.getitem generate "replies" with
  | inl e => inl e
  | inr replies =>
      match Json.getitem0 replies with
      | inl e => inl e
      | inr reply =>
          match orjson_loads reply with
          | inl e => inl e
          | inr doc => Json.getitem doc "results"
          end
      end
  end.

Local Open Scope reconcile_scope.

(** The [if]/[elif] chain on one parsed reply. *)
Definition match_reply (p : preprocessed_sql_analysis_result)
  (sql_explanation_results : json) : M unit :=
  let r := sql_explanation_results in
  c <- and_then (is_true (VFilter (p_filter p)))
                (Json.get r "filter" (JDict [])) ;;
  if c then
    e <- lift (Json.getitem r "filter") ;;
    match p_filter p with
    | Some u => append (expression_record "filter" u e)
    | None => raise KeyError
    end
  else
  c <- and_then (is_true (VTexts (p_groupByKeys p)))
                (Json.get r "groupByKeys" (JList [])) ;;
  if c then
    e <- lift (Json.getitem r "groupByKeys") ;;
    es <- lift (Json.iterate e) ;;
    for_each (combine (p_groupByKeys p) es)
      (fun pair => append (expression_record "groupByKeys" (fst pair) (snd pair)))
  else
  c <- and_then (is_true (VItems (p_relation p)))
                (Json.get r "relation" (JList [])) ;;
  if c then
    e <- lift (Json.getitem r "relation") ;;
    es <- lift (Json.iterate e) ;;
    for_each (combine (p_relation p) es) append_relation
  else
  c <- and_then (is_true (VSelect (p_selectItems p)))
                (Json.get r "selectItems" (JDict [])) ;;
  if c then
    s1 <- lift (Json.get r "selectItems" (JDict [])) ;;
    e1 <- lift (Json.get s1 "withFunctionCallOrMathematicalOperation"
                  (JList [])) ;;
    es1 <- lift (Json.iterate e1) ;;
    s2 <- lift (Json.get r "selectItems" (JDict [])) ;;
    e2 <- lift (Json.get s2 "withoutFunctionCallOrMathematicalOperation"
                  (JList [])) ;;
    es2 <- lift (Json.iterate e2) ;;
    extend
      (map (fun pair => select_record true (fst pair) (snd pair))
           (combine (withFunctionCallOrMathematicalOperation (p_selectItems p))
                    es1)
       ++ map (fun pair => select_record false (fst pair) (snd pair))
              (combine
                 (withoutFunctionCallOrMathematicalOperation (p_selectItems p))
                 es2))%list
  else
  c <- and_then (is_true (VTexts (p_sortings p)))
                (Json.get r "sortings" (JList [])) ;;
  if c then
    e <- lift (Json.getitem r "sortings") ;;
    es <- lift (Json.iterate e) ;;
    for_each (combine (p_sortings p) es)
      (fun pair => append (expression_record "sortings" (fst pair) (snd pair)))
  else ret tt.

(** One turn of [for generate in generates]. *)
Definition reconcile_reply (p : preprocessed_sql_analysis_result)
  (generate : json) : M unit :=
  r <- lift (parse_reply generate) ;;
  match_reply p r.

(** The body of the [try]. *)
Definition try_body (generates : list json)
  (preprocessed_sql_analysis_results : list preprocessed_sql_analysis_result)
  : M unit :=
  match preprocessed_sql_analysis_results with
  | [] => ret tt
  | p :: _ => for_each generates (reconcile_reply p)
  end.

(** [run]: the [except Exception] clause logs and falls through to the
    [return], so the list is returned on both outcomes. *)
Definition SQLExplanationGenerationPostProcessor_run (generates : list json)
  (preprocessed_sql_analysis_results : list preprocessed_sql_analysis_result)
  : list ExplanationRecord :=
  match try_body generates preprocessed_sql_analysis_results [] with
  | (results, inl _) => results
  | (results, inr _) => results
  end.

End Reconciler.

(** A reply raises when its turn of the loop ends in an exception. *)
Definition raises (loads : string -> option json)
  (p : preprocessed_sql_analysis_result) (generate : json) : bool :=
  match snd (reconcile_reply loads p generate []) with
  | inl _ => true
  | inr _ => false
  end.

(** The records one reply adds to an empty list. *)
Definition records_of (loads : string -> option json)
  (p : preprocessed_sql_analysis_result) (generate : json)
  : list ExplanationRecord :=
  fst (reconcile_reply loads p generate []).

Definition is_unit (item : list_item) : bool :=
  match item with
  | Unit _ => true
  | Name _ => false
  end.

(** A bundle as the preprocessor builds it: the relation list holds
    units only. *)
Definition bundle_ok (p : preprocessed_sql_analysis_result) : bool :=
  forallb is_unit (p_relation p).

(* ================================================================== *)
(** ** Explanation dispatcher: [generate_sql_explanation] *)
(* ================================================================== *)

(** [await asyncio.gather] on the tasks, called without [return_exceptions]:
    when every task returns, the list of their results in the order of
    the tasks; when a task raises, its exception is propagated to the
    caller and no list is returned.  With several failing tasks the
    library propagates the one that fails first in time; the model takes
    the first in the order of the tasks. *)
Fixpoint gather {A : Type} (tasks : list (exn + A)) : exn + list A :=
  match tasks with
  | [] => inr []
  | task :: rest =>
      match task with
      | inl e => inl e
      | inr a =>
          match gather rest with
          | inl e => inl e
          | inr results => inr (a :: results)
          end
      end
  end.

(** A call, or a batch, that returned rather than raised. *)
Definition returned {A : Type} (outcome : exn + A) : bool :=
  match outcome with
  | inr _ => true
  | inl _ => false
  end.

Section Dispatcher.

(** [generator.run(prompt=...)], the language-model call: it returns the
    reply structure or raises. *)
Variable generator_run : json -> exn + json.

(** [_task(prompt, generator)]; [prompt.get("prompt")] is [None] when
    the key is missing. *)
Definition _task (prompt : json) : exn + json :=
  match Json.get prompt "prompt" JNull with
  | inl e => inl e
  | inr text => generator_run text
  end.

(** What the function returns to the caller, or the exception it
    raises. *)
Definition generate_sql_explanation (prompts : list json)
  : exn + list json :=
  gather (map _task prompts).

End Dispatcher.

(** The units of a relation list, the names left out. *)
Definition relation_units (l : list list_item)
  : list (ExplanationUnit relation_values) :=
  flat_map (fun item => match item with
                        | Unit u => [u]
                        | Name _ => []
                        end) l.

(** The categories the reconciler pairs by position. *)
Inductive zip_category : Type := GroupByKeys | Relation | Sortings.

Definition category_key (c : zip_category) : string :=
  match c with
  | GroupByKeys => "groupByKeys"
  | Relation => "relation"
  | Sortings => "sortings"
  end.

(** The bundle's units of a category, each as the record it becomes once
    it is given its explanation. *)
Definition unit_records (c : zip_category)
  (p : preprocessed_sql_analysis_result) : list (json -> ExplanationRecord) :=
  match c with
  | GroupByKeys => map (expression_record "groupByKeys") (p_groupByKeys p)
  | Relation =>
      flat_map (fun item => match item with
                            | Unit u => [relation_record u]
                            | Name _ => []
                            end) (p_relation p)
  | Sortings => map (expression_record "sortings") (p_sortings p)
  end.

(** The number of units the bundle holds for a category. *)
Definition unit_count (c : zip_category)
  (p : preprocessed_sql_analysis_result) : nat :=
  match c with
  | GroupByKeys => List.length (p_groupByKeys p)
  | Relation => List.length (p_relation p)
  | Sortings => List.length (p_sortings p)
  end.

(** Unit [i] with explanation [i], up to the shorter list. *)
Definition paired_records (c : zip_category)
  (p : preprocessed_sql_analysis_result) (explanations : list string)
  : list ExplanationRecord :=
  map (fun pair => fst pair (JStr (snd pair)))
      (combine (unit_records c p) explanations).

(** Whether the bundle holds something for a key, and whether the reply
    does. *)
Definition bundle_has (p : preprocessed_sql_analysis_result) (key : string)
  : bool :=
  match Py.lookup key (items p) with
  | Some value => is_true value
  | None => false
  end.

Definition reply_has (kvs : list (string * json)) (key : string) : bool :=
  match Py.lookup key kvs with
  | Some v => Json.truthy v
  | None => false
  end.

(** The other four categories of the [if]/[elif] chain. *)
Definition other_categories (c : zip_category) : list string :=
  filter (fun key => negb (String.eqb key (category_key c)))
         ["filter"; "groupByKeys"; "relation"; "selectItems"; "sortings"].

(** No other category is held by both the bundle and the reply. *)
Definition unmatched_elsewhere (c : zip_category)
  (p : preprocessed_sql_analysis_result) (kvs : list (string * json)) : bool :=
  forallb (fun key => negb (bundle_has p key && reply_has kvs key))
          (other_categories c).

(** A computation that leaves [results] alone: it raises, or returns. *)
Definition silent {A : Type} (m : M A) : Prop :=
  (exists e, forall results, m results = (results, inl e))
  \/ (exists a, forall results, m results = (results, inr a)).

(** A computation that raises with [results] as it found it, or appends
    a fixed run of records and returns. *)
Definition atomic {A : Type} (m : M A) : Prop :=
  (exists e, forall results, m results = (results, inl e))
  \/ (exists rs a, forall results, m results = ((results ++ rs)%list, inr a)).

Module Sample.

(** A decoder for two replies; every other text is malformed. *)
Definition loads (s : string) : option json :=
  if String.eqb s "G" then
    Some (JDict [("results",
                  JDict [("groupByKeys", JList [JStr "by city"; JStr "spare"])])])
  else if String.eqb s "R" then
    Some (JDict [("results", JDict [("relation", JList [JStr "joins orders"])])])
  else None.

Definition reply (text : string) : json :=
  JDict [("replies", JList [JStr text])].

Definition bundle : preprocessed_sql_analysis_result :=
  mkBundle None
    [mkUnit "city" "g1"]
    [Unit (mkUnit (TableValues "TABLE" "orders") "t1");
     Unit (mkUnit (TableValues "TABLE" "users") "t2")]
    (mkSelectResult [] [])
    [].

End Sample.

(** ** Notions for further properties *)

(** The text a flattener result stands for: the bare text, or the
    ["values"] of the dictionary. *)
Definition result_text (x : filter_result) : string :=
  match x with
  | FText s => s
  | FUnit u => values u
  end.

(** A unit made from a join node. *)
Definition is_join_unit (item : list_item) : bool :=
  match item with
  | Unit u =>
      match values u with
      | JoinValues _ _ _ => true
      | TableValues _ _ => false
      end
  | Name _ => false
  end.

(** [not sql_analysis_result.get("isSubqueryOrCte", False)]. *)
Definition not_subquery_or_cte (a : sql_analysis_result) : bool :=
  negb (Py.get_default (isSubqueryOrCte a) false).

Definition category_names : list string :=
  ["filter"; "groupByKeys"; "relation"; "selectItems"; "sortings"].

(** The keys of a bundle whose value passes [if value:], in order. *)
Definition true_categories (p : preprocessed_sql_analysis_result)
  : list string :=
  map fst (filter (fun kv => is_true (snd kv)) (items p)).

(** The number of units a bundle holds, over all categories. *)
Definition units_total (p : preprocessed_sql_analysis_result) : nat :=
  (match p_filter p with Some _ => 1 | None => 0 end)
  + List.length (p_groupByKeys p)
  + List.length (p_relation p)
  + List.length (withFunctionCallOrMathematicalOperation (p_selectItems p))
  + List.length (withoutFunctionCallOrMathematicalOperation (p_selectItems p))
  + List.length (p_sortings p).

(** Records of one category. *)
Definition one_category (rs : list ExplanationRecord) : Prop :=
  exists type,
    In type category_names /\ Forall (fun r => rec_type r = type) rs.

(** A computation that adds to [results] a run of records with property
    [P], whether it returns or raises. *)
Definition emits (P : list ExplanationRecord -> Prop) {A : Type} (m : M A)
  : Prop :=
  forall results,
    exists rs, fst (m results) = (results ++ rs)%list /\ P rs.

Definition is_dict (x : json) : bool :=
  match x with
  | JDict _ => true
  | _ => false
  end.

(** What one reply may add for bundle [p]: records of one category, no
    more than the bundle has units. *)
Definition reply_bound (p : preprocessed_sql_analysis_result)
  (rs : list ExplanationRecord) : Prop :=
  List.length rs <= units_total p /\ one_category rs.

(** A reply the chain cannot read: reading or decoding it raises, or
    its ["results"] is no dictionary. *)
Definition reply_unusable (loads : string -> option json) (generate : json)
  : bool :=
  match parse_reply loads generate with
  | inl _ => true
  | inr r => negb (is_dict r)
  end.

(* ================================================================== *)
(** ** Semantic models from table descriptions: [eval/preparation.py] *)
(* ================================================================== *)

Module Preparation.

(** The keys of one entry of [tables.json] that [build_mdl_by_db] reads.
    An entry of [column_names_original] is the pair of a table index and
    a column name. *)
Record tables_info : Type := mkTablesInfo {
  column_names_original : list (Z * string);
  column_types : list string;
  table_names_original : list string
}.

Record column_info : Type := mkColumnInfo {
  table_index : Z;
  column_name : string;
  column_type : string
}.

(** [{"name": ..., "type": ..., "notNull": False, "properties": {}}]. *)
Record mdl_column : Type := mkMdlColumn {
  col_name : string;
  col_type : string;
  notNull : bool;
  col_properties : list (string * string)
}.

Record table_reference : Type := mkTableReference {
  catalog : string;
  schema : string;
  table : string
}.

Record mdl_model : Type := mkMdlModel {
  model_name : string;
  model_properties : list (string * string);
  tableReference : table_reference;
  primaryKey : string;
  columns : list mdl_column
}.

Definition _merge_column_info (column_names_original : list (Z * string))
  (column_types : list string) : list column_info :=
  map (fun entry => mkColumnInfo (fst (fst entry)) (snd (fst entry)) (snd entry))
      (combine column_names_original column_types).

Definition _get_columns_by_table_index (columns : list column_info)
  (index : Z) : list column_info :=
  filter (fun col => Z.eqb (table_index col) index) columns.

Definition _build_mdl_columns (info : tables_info) (index : Z)
  : list mdl_column :=
  let _columns :=
    _get_columns_by_table_index
      (_merge_column_info (column_names_original info) (column_types info))
      index in
  map (fun column =>
         mkMdlColumn (column_name column) (column_type column) false [])
      _columns.

(** [enumerate(l)]. *)
Definition enumerate {A : Type} (l : list A) : list (nat * A) :=
  combine (seq 0 (List.length l)) l.

(** One model of the comprehension; [column_names_original[i]] raises
    [IndexError] past the end of the list. *)
Definition build_model (database : string) (info : tables_info)
  (entry : nat * string) : exn + mdl_model :=
  match nth_error (column_names_original info) (fst entry) with
  | None => inl IndexError
  | Some column =>
      inr (mkMdlModel (snd entry) []
             (mkTableReference "wrenai" database (snd entry))
             (snd column)
             (_build_mdl_columns info (Z.of_nat (fst entry))))
  end.

Definition _build_mdl_models (database : string) (info : tables_info)
  : exn + list mdl_model :=
  map_result (build_model database info)
             (enumerate (table_names_original info)).

(** The columns of all models together. *)
Definition all_columns (models : list mdl_model) : list mdl_column :=
  flat_map columns models.

End Preparation.

(* ================================================================== *)
(** * Properties *)
(* ================================================================== *)

(** ** Filter flattener *)

(** A leaf at the top gives one unit with the leaf's text and id. *)
Lemma filter_leaf_unit (node : string) (fid : option string) :
  _compose_sql_expression_of_filter_type (EXPR node fid) true
  = FUnit (mkUnit node (Py.get_default fid EmptyString)).
Proof. reflexivity. Qed.

(** At the top the flattener always returns a dictionary. *)
Lemma filter_top_is_unit (f : filter_analysis) :
  exists u, _compose_sql_expression_of_filter_type f true = FUnit u.
Proof.
  destruct f as [node fid | op l r fid | type fid]; simpl; eauto.
Qed.

(** Where both children of the root are leaves the rendering is the
    infix text. *)
Lemma filter_flat_tree_infix (op : bool_op) (a b : string)
  (ia ib fid : option string) :
  let tree := BoolExpr op (EXPR a ia) (EXPR b ib) fid in
  _compose_sql_expression_of_filter_type tree true
  = FUnit (mkUnit (infix_concatenation tree) (Py.get_default fid EmptyString)).
Proof. reflexivity. Qed.

(** An inner [AND]/[OR] node is formatted as a dictionary, whatever its
    children are. *)
Lemma filter_inner_node_formatted (op : bool_op) (l r : filter_analysis)
  (fid : option string) :
  exists v,
    format_filter_result
      (_compose_sql_expression_of_filter_type (BoolExpr op l r fid) false)
    = "{'values': " ++ v.
Proof. simpl. eexists. reflexivity. Qed.

(** C2, at a tree with an [AND] node under an [OR] root: the tree is built
    from [EXPR] leaves and [AND]/[OR] nodes only, the flattener returns one
    unit, and its text holds the printed dictionary of the inner node
    where the infix concatenation has [a AND b]. *)
Theorem filter_nested_node_rendering :
  let inner := BoolExpr AND (EXPR "a" None) (EXPR "b" None) None in
  let tree := BoolExpr OR inner (EXPR "c" None) None in
  expr_and_or_only tree = true
  /\ _compose_sql_expression_of_filter_type tree true
     = FUnit (mkUnit "{'values': 'a AND b', 'id': ''} OR c" EmptyString)
  /\ infix_concatenation tree = "a AND b OR c".
Proof. repeat split. Qed.

(** C7 as stated fails: the root is an [AND] node with id [r1], and the
    unit carries [r1]. *)
Lemma filter_internal_root_id_kept :
  let tree :=
    BoolExpr AND (EXPR "a" (Some "f1")) (EXPR "b" (Some "f2")) (Some "r1") in
  is_leaf tree = false
  /\ root_id tree = Some "r1"
  /\ _compose_sql_expression_of_filter_type tree true
     = FUnit (mkUnit "a AND b" "r1").
Proof. repeat split. Qed.

(** C7, amended: the unit of a tree whose root is an [AND]/[OR] node
    carries the root's own id, the empty text when the root has none,
    next to the synthesized text. *)
Theorem filter_internal_root_id (op : bool_op) (l r : filter_analysis)
  (fid : option string) :
  exists u,
    _compose_sql_expression_of_filter_type (BoolExpr op l r fid) true = FUnit u
    /\ id u = Py.get_default (root_id (BoolExpr op l r fid)) EmptyString
    /\ values u
       = format_filter_result (_compose_sql_expression_of_filter_type l false)
         ++ " " ++ op_name op ++ " "
         ++ format_filter_result (_compose_sql_expression_of_filter_type r false).
Proof. eexists. split; [reflexivity | split; reflexivity]. Qed.

(** ** Relation flattener *)

Lemma collect_relations_skip (r : relation) (result cte_names : list list_item)
  (top_level : bool) :
  _is_subquery_or_has_subquery_child r = true ->
  _collect_relations r result cte_names top_level = (result, cte_names).
Proof.
  intros H. destruct r as [name rid | k crit srcs l r rid | rid].
  - discriminate H.
  - cbn [_collect_relations]. rewrite H. reflexivity.
  - reflexivity.
Qed.

Lemma endswith_join_name (k : join_kind) :
  Py.endswith (join_name k) "_JOIN" = true.
Proof. destruct k; reflexivity. Qed.

(** Below the top, a call appends [own_units] to the list it received as
    [result] and [other_units] to the one it received as [cte_names]. *)
Lemma collect_relations_nested (r : relation) :
  forall result cte_names,
    _collect_relations r result cte_names false
    = ((result ++ own_units r)%list, (cte_names ++ other_units r)%list).
Proof.
  induction r as [name rid | k crit srcs l IHl r IHr rid | rid];
    intros result cte_names.
  - simpl. rewrite !app_nil_r. reflexivity.
  - destruct (_is_subquery_or_has_subquery_child (JOIN k crit srcs l r rid))
      eqn:Hskip.
    + rewrite collect_relations_skip by exact Hskip.
      cbn [own_units other_units]. rewrite Hskip, !app_nil_r. reflexivity.
    + cbn [_collect_relations own_units other_units]. rewrite Hskip.
      cbn [relation_type]. rewrite endswith_join_name.
      rewrite IHl, IHr. rewrite <- !app_assoc. reflexivity.
  - simpl. rewrite !app_nil_r. reflexivity.
Qed.

(** The whole flattener: what it returns and what it leaves in the
    caller's list. *)
Lemma compose_relation_lists (r : relation) (cte_names : list list_item) :
  _compose_sql_expression_of_relation_type r cte_names
  = ((top_table_units r cte_names ++ own_units r)%list,
     (cte_names ++ other_units r)%list).
Proof.
  unfold _compose_sql_expression_of_relation_type.
  destruct r as [name rid | k crit srcs l r rid | rid].
  - simpl. destruct (name_in name cte_names); rewrite !app_nil_r; reflexivity.
  - destruct (_is_subquery_or_has_subquery_child (JOIN k crit srcs l r rid))
      eqn:Hskip.
    + rewrite collect_relations_skip by exact Hskip.
      cbn [own_units other_units top_table_units]. rewrite Hskip, !app_nil_r.
      reflexivity.
    + cbn [_collect_relations own_units other_units top_table_units].
      rewrite Hskip. cbn [relation_type]. rewrite endswith_join_name.
      rewrite !collect_relations_nested. rewrite <- !app_assoc. reflexivity.
  - simpl. rewrite !app_nil_r. reflexivity.
Qed.

Lemma join_name_not_subquery (k : join_kind) :
  String.eqb (join_name k) "SUBQUERY" = false.
Proof. destruct k; reflexivity. Qed.

Lemma no_subquery_not_skipped (r : relation) :
  has_subquery r = false -> _is_subquery_or_has_subquery_child r = false.
Proof.
  destruct r as [name rid | k crit srcs l r rid | rid]; intros H.
  - reflexivity.
  - simpl in H. apply orb_false_iff in H. destruct H as [Hl Hr].
    unfold _is_subquery_or_has_subquery_child. cbn [relation_type].
    rewrite join_name_not_subquery, endswith_join_name.
    destruct l, r; simpl in Hl, Hr; try discriminate;
      cbn [relation_type]; rewrite ?join_name_not_subquery; reflexivity.
  - discriminate H.
Qed.

(** Without subqueries the two lists grow by the joins at even and at
    odd depth. *)
Lemma units_count_by_depth (r : relation) :
  has_subquery r = false ->
  List.length (own_units r) = joins_even r
  /\ List.length (other_units r) = joins_odd r.
Proof.
  induction r as [name rid | k crit srcs l IHl r IHr rid | rid]; intros H.
  - split; reflexivity.
  - pose proof (no_subquery_not_skipped _ H) as Hskip.
    simpl in H. apply orb_false_iff in H. destruct H as [Hl Hr].
    destruct (IHl Hl) as [IHl1 IHl2]. destruct (IHr Hr) as [IHr1 IHr2].
    cbn [own_units other_units joins_even joins_odd]. rewrite Hskip.
    cbn [List.length]. rewrite !length_app. split; congruence.
  - discriminate H.
Qed.

Lemma joins_even_odd (r : relation) :
  joins_even r + joins_odd r = count_joins r.
Proof.
  induction r as [name rid | k crit srcs l IHl r IHr rid | rid]; simpl; lia.
Qed.

Lemma top_table_units_count (r : relation) (cte_names : list list_item) :
  List.length (top_table_units r cte_names)
  = count_top_level_tables r cte_names.
Proof.
  destruct r as [name rid | | ]; simpl; try reflexivity.
  destruct (name_in name cte_names); reflexivity.
Qed.

(** The returned list falls short of the spec's count by the joins at
    odd depth, and the caller's list grows by as many elements. *)
Lemma relation_units_shortfall (r : relation) (cte_names : list list_item) :
  has_subquery r = false ->
  List.length (fst (_compose_sql_expression_of_relation_type r cte_names))
  + joins_odd r
  = count_joins r + count_top_level_tables r cte_names
  /\ List.length (snd (_compose_sql_expression_of_relation_type r cte_names))
     = List.length cte_names + joins_odd r.
Proof.
  intros H. rewrite compose_relation_lists. cbn [fst snd].
  destruct (units_count_by_depth r H) as [Hown Hother].
  rewrite !length_app, top_table_units_count, Hown, Hother.
  pose proof (joins_even_odd r). lia.
Qed.

(** A skipped subtree adds nothing to either list. *)
Lemma skipped_subtree_no_units (r : relation) :
  _is_subquery_or_has_subquery_child r = true ->
  own_units r = [] /\ other_units r = [].
Proof.
  intros H. destruct r; cbn [own_units other_units]; rewrite ?H;
    split; reflexivity.
Qed.

(** The returned list holds units only. *)
Lemma own_units_are_units (r : relation) :
  forallb is_unit (own_units r) = true /\ forallb is_unit (other_units r) = true.
Proof.
  induction r as [name rid | k crit srcs l IHl r IHr rid | rid].
  - split; reflexivity.
  - destruct IHl as [IHl1 IHl2]. destruct IHr as [IHr1 IHr2].
    cbn [own_units other_units].
    destruct (_is_subquery_or_has_subquery_child (JOIN k crit srcs l r rid)).
    + split; reflexivity.
    + split.
      * cbn [forallb]. rewrite forallb_app, IHl2, IHr2. reflexivity.
      * rewrite forallb_app, IHl1, IHr1. reflexivity.
  - split; reflexivity.
Qed.

Lemma compose_relation_units_only (r : relation) (cte_names : list list_item) :
  forallb is_unit (fst (_compose_sql_expression_of_relation_type r cte_names))
  = true.
Proof.
  rewrite compose_relation_lists. cbn [fst]. rewrite forallb_app.
  destruct (own_units_are_units r) as [H _]. rewrite H, andb_true_r.
  destruct r as [name rid | | ]; simpl; try reflexivity.
  destruct (name_in name cte_names); reflexivity.
Qed.

(** C1, at a join whose left child is a join, over tables only and with
    no CTE names: the tree has no subquery and two join nodes, and the
    returned list has one unit, the root's. *)
Theorem relation_nested_join_units :
  let inner :=
    JOIN LEFT_JOIN "a.id = b.id" [] (TABLE "a" None) (TABLE "b" None)
         (Some "j2") in
  let tree :=
    JOIN INNER_JOIN "b.id = c.id" [] inner (TABLE "c" None) (Some "j1") in
  has_subquery tree = false
  /\ count_joins tree + count_top_level_tables tree [] = 2
  /\ fst (_compose_sql_expression_of_relation_type tree [])
     = [Unit (mkUnit (JoinValues "INNER_JOIN" "b.id = c.id" []) "j1")]
  /\ List.length (fst (_compose_sql_expression_of_relation_type tree [])) = 1.
Proof. repeat split. Qed.

(** C3, at the same tree and the caller's list [["cte1"]]: when the call
    returns, the caller's list holds the unit of the inner join after
    the name. *)
Theorem relation_nested_join_changes_cte_names :
  let inner :=
    JOIN LEFT_JOIN "a.id = b.id" [] (TABLE "a" None) (TABLE "b" None)
         (Some "j2") in
  let tree :=
    JOIN INNER_JOIN "b.id = c.id" [] inner (TABLE "c" None) (Some "j1") in
  snd (_compose_sql_expression_of_relation_type tree [Name "cte1"])
  = [Name "cte1";
     Unit (mkUnit (JoinValues "LEFT_JOIN" "a.id = b.id" []) "j2")]
  /\ snd (_compose_sql_expression_of_relation_type tree [Name "cte1"])
     <> [Name "cte1"].
Proof. split; [reflexivity | discriminate]. Qed.

(** The caller's list is left as it was exactly when no join lies at odd
    depth of the part that is walked. *)
Lemma relation_cte_names_unchanged_iff (r : relation)
  (cte_names : list list_item) :
  snd (_compose_sql_expression_of_relation_type r cte_names) = cte_names
  <-> other_units r = [].
Proof.
  rewrite compose_relation_lists. cbn [snd]. split; intros H.
  - apply (app_inv_head cte_names). rewrite app_nil_r. exact H.
  - rewrite H, app_nil_r. reflexivity.
Qed.

(** ** Select items *)

Lemma existed_in_data_source_existsb (it : select_item)
  (l : list data_source) :
  existed_in_data_source it l = existsb (same_source it) l.
Proof.
  induction l as [| d l IH]; simpl; [reflexivity |].
  rewrite IH. destruct (same_source it d); reflexivity.
Qed.

Lemma existed_existsb (it : select_item) (sds : list (list data_source)) :
  _is_select_item_existed_in_selected_data_sources it sds
  = existsb (same_source it) (concat sds).
Proof.
  induction sds as [| l sds IH]; simpl; [reflexivity |].
  rewrite existsb_app, IH, existed_in_data_source_existsb.
  destruct (existsb (same_source it) l); reflexivity.
Qed.

(** The loops with their early [return True] decide the spec's
    "retained". *)
Lemma retained_iff_not_existed (it : select_item)
  (sds : list (list data_source)) :
  retained sds it
  = negb (_is_select_item_existed_in_selected_data_sources it sds).
Proof.
  rewrite existed_existsb. unfold retained, same_source.
  destruct (si_exprSources it) as [[| first rest] |].
  - induction (concat sds) as [| d l IH]; simpl; auto.
  - induction (concat sds) as [| d l IH]; simpl; [reflexivity |].
    rewrite IH, negb_orb. reflexivity.
  - induction (concat sds) as [| d l IH]; simpl; auto.
Qed.

Lemma select_loop (sds : list (list data_source)) (l : list select_item) :
  forall acc,
    fold_left (select_step sds) l acc
    = mkSelectResult
        (withFunctionCallOrMathematicalOperation acc
         ++ map select_unit
              (filter (fun it => retained sds it && has_function_call_or_math it)
                      l))%list
        (withoutFunctionCallOrMathematicalOperation acc
         ++ map select_unit
              (filter (fun it => retained sds it
                                 && negb (has_function_call_or_math it))
                      l))%list.
Proof.
  induction l as [| it l IH]; intros acc.
  - simpl. rewrite !app_nil_r. destruct acc; reflexivity.
  - cbn [fold_left filter]. rewrite IH. unfold select_step.
    rewrite <- retained_iff_not_existed.
    destruct (retained sds it); cbn [andb].
    + destruct (has_function_call_or_math it); cbn [negb map];
        simpl; rewrite <- ?app_assoc; reflexivity.
    + reflexivity.
Qed.

(** C8: the two sub-lists are the units of the retained items, in input
    order: an item is retained exactly when it has no first expression
    source or that source matches no selected data source by dataset and
    column; a retained item is in the first sub-list exactly when
    [includeFunctionCall] or [includeMathematicalOperation] equals
    ["true"], and in the second otherwise; its unit holds the item's
    alias and expression as values and the item's id, or the empty
    text. *)
Theorem select_items_partition (select_items : list select_item)
  (selected_data_sources : list (list data_source)) :
  let with_call_or_math := fun it =>
    String.eqb (includeFunctionCall (properties it)) "true"
    || String.eqb (includeMathematicalOperation (properties it)) "true" in
  let unit_of := fun it =>
    mkUnit (mkSelectValues (alias it) (si_expression it))
           (match si_id it with
            | Some i => i
            | None => EmptyString
            end) in
  _compose_sql_expression_of_select_type select_items selected_data_sources
  = mkSelectResult
      (map unit_of
         (filter (fun it => retained selected_data_sources it
                            && with_call_or_math it)
                 select_items))
      (map unit_of
         (filter (fun it => retained selected_data_sources it
                            && negb (with_call_or_math it))
                 select_items)).
Proof.
  intros with_call_or_math unit_of.
  unfold _compose_sql_expression_of_select_type. rewrite select_loop.
  cbn [withFunctionCallOrMathematicalOperation
       withoutFunctionCallOrMathematicalOperation app].
  unfold with_call_or_math, unit_of. reflexivity.
Qed.

(** Four items: one matches a selected data source and is left out, one
    has a function call, one a mathematical operation, one neither. *)
Lemma select_items_partition_witness :
  let props := fun call math => mkProperties call math in
  let seen :=
    mkSelectItem "c" "city" (props "false" "false")
      (Some [mkExprSource "city" "users" "city"]) (Some "s0") in
  let total :=
    mkSelectItem "t" "sum(x)" (props "true" "false") None (Some "s1") in
  let ratio :=
    mkSelectItem "r" "a / b" (props "false" "true") (Some []) None in
  let plain :=
    mkSelectItem "n" "name" (props "True" "no")
      (Some [mkExprSource "name" "users" "name"]) (Some "s3") in
  _compose_sql_expression_of_select_type [seen; total; ratio; plain]
    [[mkDataSource "orders" "city"]; [mkDataSource "users" "city"]]
  = mkSelectResult
      [mkUnit (mkSelectValues "t" "sum(x)") "s1";
       mkUnit (mkSelectValues "r" "a / b") EmptyString]
      [mkUnit (mkSelectValues "n" "name") "s3"].
Proof.
  intros props seen total ratio plain.
  exact (select_items_partition [seen; total; ratio; plain]
           [[mkDataSource "orders" "city"]; [mkDataSource "users" "city"]]).
Defined.

(** ** Prompt request builder *)

(** C4, at the bundle of an analysis result with no keys: every category
    is empty, both select sub-lists included, and one request is made,
    for [selectItems], with two empty lists. *)
Theorem prompts_empty_select_items_request (question sql sql_summary : string) :
  let fragment := mkAnalysis None None None None None None in
  let bundles := fst (SQLAnalysisPreprocessor_run [] [] [fragment]) in
  bundles = [mkBundle None [] [] (mkSelectResult [] []) []]
  /\ requests question sql bundles sql_summary
     = inr [mkRequest question sql ("selectItems", OnlySelect [] [])
              "Explain the select items in the SQL query." sql_summary].
Proof. split; reflexivity. Qed.

Lemma map_result_units (l : list list_item) :
  forallb is_unit l = true ->
  exists vs, map_result item_values l = inr vs /\ List.length vs = List.length l.
Proof.
  induction l as [| item l IH]; intros H.
  - exists []. split; reflexivity.
  - simpl in H. apply andb_true_iff in H. destruct H as [Hi Hl].
    destruct (IH Hl) as [vs [Hvs Hlen]].
    destruct item as [s | u]; [discriminate Hi |].
    exists (values u :: vs). simpl. rewrite Hvs, Hlen. split; reflexivity.
Qed.

(** For one bundle, the requests are those of the categories whose value
    is true under [if value:], in the order of the bundle's keys.  The
    select result has two keys, so it always is. *)
Lemma requests_categories (question sql sql_summary : string)
  (p : preprocessed_sql_analysis_result) :
  bundle_ok p = true ->
  exists rs,
    requests question sql [p] sql_summary = inr rs
    /\ map category rs
       = map fst (filter (fun kv => is_true (snd kv)) (items p)).
Proof.
  intros Hok. unfold bundle_ok in Hok.
  destruct (map_result_units _ Hok) as [vs [Hvs _]].
  destruct p as [f g r s so]. cbn [p_relation] in *.
  unfold requests, collect_bundles, items.
  cbn [p_filter p_groupByKeys p_relation p_selectItems p_sortings].
  destruct f as [fu |]; destruct g as [| g1 g]; destruct r as [| r1 r];
    destruct so as [| so1 so];
    cbn -[map_result]; rewrite ?Hvs; cbn; eexists; split; reflexivity.
Qed.

(** ** Result reconciler *)

Lemma silent_ret {A : Type} (a : A) : silent (ret a).
Proof. right. exists a. reflexivity. Qed.

Lemma silent_raise {A : Type} (e : exn) : silent (@raise A e).
Proof. left. exists e. reflexivity. Qed.

Lemma silent_lift {A : Type} (x : exn + A) : silent (lift x).
Proof. destruct x; [apply silent_raise | apply silent_ret]. Qed.

Lemma silent_and_then (a : bool) (b : exn + json) : silent (and_then a b).
Proof.
  unfold and_then. destruct a; [| apply silent_ret].
  destruct b; [apply silent_raise | apply silent_ret].
Qed.

Lemma atomic_ret {A : Type} (a : A) : atomic (ret a).
Proof.
  right. exists [], a. intros results. unfold ret. rewrite app_nil_r.
  reflexivity.
Qed.

Lemma atomic_raise {A : Type} (e : exn) : atomic (@raise A e).
Proof. left. exists e. reflexivity. Qed.

Lemma atomic_append (r : ExplanationRecord) : atomic (append r).
Proof. right. exists [r], tt. reflexivity. Qed.

Lemma atomic_extend (rs : list ExplanationRecord) : atomic (extend rs).
Proof. right. exists rs, tt. reflexivity. Qed.

(** A silent step followed by an atomic rest is atomic. *)
Lemma atomic_bind {A B : Type} (m : M A) (k : A -> M B) :
  silent m -> (forall a, atomic (k a)) -> atomic (bind m k).
Proof.
  intros [[e He] | [a Ha]] Hk.
  - left. exists e. intros results. unfold bind. rewrite He. reflexivity.
  - destruct (Hk a) as [[e He] | [rs [b Hb]]].
    + left. exists e. intros results. unfold bind. rewrite Ha. apply He.
    + right. exists rs, b. intros results. unfold bind. rewrite Ha. apply Hb.
Qed.

(** A loop whose body only appends runs to its end. *)
Lemma for_each_append {A : Type} (f : A -> ExplanationRecord) (l : list A) :
  forall results,
    for_each l (fun a => append (f a)) results
    = ((results ++ map f l)%list, inr tt).
Proof.
  induction l as [| a l IH]; intros results.
  - simpl. unfold ret. rewrite app_nil_r. reflexivity.
  - cbn [for_each map]. unfold bind, append at 1. rewrite IH.
    rewrite <- app_assoc. reflexivity.
Qed.

(** The relation loop, on a list of units. *)
Lemma for_each_relation (l : list list_item) :
  forallb is_unit l = true ->
  forall (es : list json) results,
    for_each (combine l es) append_relation results
    = ((results
        ++ map (fun pair => fst pair (snd pair))
             (combine
                (flat_map (fun item => match item with
                                       | Unit u => [relation_record u]
                                       | Name _ => []
                                       end) l)
                es))%list,
       inr tt).
Proof.
  induction l as [| item l IH]; intros Hok es results.
  - simpl. unfold ret. rewrite app_nil_r. reflexivity.
  - simpl in Hok. apply andb_true_iff in Hok. destruct Hok as [Hi Hl].
    destruct item as [s | u]; [discriminate Hi |].
    destruct es as [| e es].
    + simpl. unfold ret. rewrite app_nil_r. reflexivity.
    + cbn [combine for_each flat_map app map fst snd].
      unfold bind, append_relation at 1. cbn [fst snd]. unfold append.
      rewrite (IH Hl). rewrite <- app_assoc. reflexivity.
Qed.

Lemma atomic_for_each_append {A : Type} (f : A -> ExplanationRecord)
  (l : list A) :
  atomic (for_each l (fun a => append (f a))).
Proof. right. exists (map f l), tt. apply for_each_append. Qed.

Lemma atomic_for_each_relation (l : list list_item) (es : list json) :
  forallb is_unit l = true ->
  atomic (for_each (combine l es) append_relation).
Proof.
  intros Hok. right. eexists. exists tt. intros results.
  apply for_each_relation. exact Hok.
Qed.

(** With a bundle of units, matching one reply raises before it appends
    or appends and returns. *)
Lemma atomic_match_reply (p : preprocessed_sql_analysis_result) (r : json) :
  bundle_ok p = true -> atomic (match_reply p r).
Proof.
  intros Hok. unfold bundle_ok in Hok. unfold match_reply.
  repeat first
    [ apply atomic_ret
    | apply atomic_raise
    | apply atomic_append
    | apply atomic_extend
    | apply atomic_for_each_append
    | apply atomic_for_each_relation; exact Hok
    | apply atomic_bind; [first [apply silent_and_then | apply silent_lift] |]
    | intros []
    | intros ?
    | match goal with
      | |- atomic (match p_filter p with _ => _ end) => destruct (p_filter p)
      end ].
Qed.

Lemma atomic_reconcile_reply (loads : string -> option json)
  (p : preprocessed_sql_analysis_result) (generate : json) :
  bundle_ok p = true -> atomic (reconcile_reply loads p generate).
Proof.
  intros Hok. unfold reconcile_reply. apply atomic_bind.
  - apply silent_lift.
  - intros r. apply atomic_match_reply. exact Hok.
Qed.

Section ReconcilerFacts.

Variable loads : string -> option json.
Variable p : preprocessed_sql_analysis_result.
Hypothesis p_ok : bundle_ok p = true.

(** A reply that raises leaves [results] as it found it. *)
Lemma raising_reply_appends_nothing (generate : json) :
  raises loads p generate = true ->
  exists e, forall results,
    reconcile_reply loads p generate results = (results, inl e).
Proof.
  intros Hr. destruct (atomic_reconcile_reply loads p generate p_ok)
    as [[e He] | [rs [a Ha]]].
  - exists e. exact He.
  - unfold raises in Hr. rewrite Ha in Hr. discriminate Hr.
Qed.

(** A reply that does not raise appends its records. *)
Lemma returning_reply_appends_records (generate : json) :
  raises loads p generate = false ->
  forall results,
    reconcile_reply loads p generate results
    = ((results ++ records_of loads p generate)%list, inr tt).
Proof.
  intros Hr results. destruct (atomic_reconcile_reply loads p generate p_ok)
    as [[e He] | [rs [a Ha]]].
  - unfold raises in Hr. rewrite He in Hr. discriminate Hr.
  - unfold records_of. rewrite !Ha. destruct a. reflexivity.
Qed.

Lemma loop_over_returning_replies (generates : list json) :
  forallb (fun g => negb (raises loads p g)) generates = true ->
  forall results,
    for_each generates (reconcile_reply loads p) results
    = ((results ++ concat (map (records_of loads p) generates))%list, inr tt).
Proof.
  induction generates as [| g gs IH]; intros Hall results.
  - simpl. unfold ret. rewrite app_nil_r. reflexivity.
  - simpl in Hall. apply andb_true_iff in Hall. destruct Hall as [Hg Hgs].
    apply negb_true_iff in Hg.
    cbn [for_each map concat]. unfold bind.
    rewrite (returning_reply_appends_records g Hg), (IH Hgs).
    rewrite <- app_assoc. reflexivity.
Qed.

Lemma loop_stops_at_raising_reply (before after : list json) (g : json) :
  forallb (fun g' => negb (raises loads p g')) before = true ->
  raises loads p g = true ->
  exists e, forall results,
    for_each (before ++ g :: after) (reconcile_reply loads p) results
    = ((results ++ concat (map (records_of loads p) before))%list, inl e).
Proof.
  intros Hall Hg. destruct (raising_reply_appends_nothing g Hg) as [e He].
  exists e. induction before as [| g' gs IH]; intros results.
  - cbn [app for_each map concat]. unfold bind. rewrite He, app_nil_r.
    reflexivity.
  - simpl in Hall. apply andb_true_iff in Hall. destruct Hall as [Hg' Hgs].
    apply negb_true_iff in Hg'.
    cbn [app for_each map concat]. unfold bind.
    rewrite (returning_reply_appends_records g' Hg'), (IH Hgs).
    rewrite <- app_assoc. reflexivity.
Qed.

End ReconcilerFacts.

(** C6: when the replies before some reply are reconciled without an
    exception and that reply raises one (in [generate["replies"][0]], in
    decoding, in reading ["results"], or in matching), the [try] body ends
    in the exception, and [run] returns the records of the replies before
    it, in order, which is also what [run] returns for those replies
    alone. *)
Theorem run_keeps_records_before_failure (loads : string -> option json)
  (before after : list json) (generate : json)
  (p : preprocessed_sql_analysis_result)
  (ps : list preprocessed_sql_analysis_result) :
  bundle_ok p = true ->
  forallb (fun g => negb (raises loads p g)) before = true ->
  raises loads p generate = true ->
  (exists e,
     snd (try_body loads (before ++ generate :: after) (p :: ps) []) = inl e)
  /\ SQLExplanationGenerationPostProcessor_run loads
       (before ++ generate :: after) (p :: ps)
     = concat (map (records_of loads p) before)
  /\ SQLExplanationGenerationPostProcessor_run loads before (p :: ps)
     = concat (map (records_of loads p) before).
Proof.
  intros Hok Hbefore Hraise.
  destruct (loop_stops_at_raising_reply loads p Hok before after generate
              Hbefore Hraise) as [e He].
  unfold SQLExplanationGenerationPostProcessor_run, try_body.
  rewrite He, (loop_over_returning_replies loads p Hok before Hbefore).
  cbn [snd app]. split; [exists e; reflexivity | split; reflexivity].
Qed.

(** The decoder rejects the second reply; the record of the first one is
    returned. *)
Lemma run_keeps_records_before_failure_witness :
  SQLExplanationGenerationPostProcessor_run Sample.loads
    ([Sample.reply "G"] ++ Sample.reply "not json" :: [Sample.reply "R"])
    [Sample.bundle]
  = [mkRecord "groupByKeys" (ExpressionPayload "g1" "city" (JStr "by city"))].
Proof.
  exact (proj1 (proj2
    (run_keeps_records_before_failure Sample.loads
       [Sample.reply "G"] [Sample.reply "R"] (Sample.reply "not json")
       Sample.bundle [] eq_refl eq_refl eq_refl))).
Defined.

(** C10: with no bundle, [run] returns the empty list whatever the
    replies are; no reply is read. *)
Theorem run_without_bundle (loads : string -> option json)
  (generates : list json) :
  SQLExplanationGenerationPostProcessor_run loads generates [] = []
  /\ try_body loads generates [] [] = ([], inr tt).
Proof. split; reflexivity. Qed.

(** *** Pairing by position *)

Lemma map_combine_apply {A B C : Type} (j : B -> C) (fs : list (C -> A))
  (es : list B) :
  map (fun pair => fst pair (snd pair)) (combine fs (map j es))
  = map (fun pair => fst pair (j (snd pair))) (combine fs es).
Proof.
  revert es. induction fs as [| f fs IH]; intros [| e es]; simpl;
    try reflexivity.
  rewrite IH. reflexivity.
Qed.

Lemma map_combine_curry {A U C : Type} (h : U -> C -> A) (l : list U)
  (js : list C) :
  map (fun pair => h (fst pair) (snd pair)) (combine l js)
  = map (fun pair => fst pair (snd pair)) (combine (map h l) js).
Proof.
  revert js. induction l as [| u l IH]; intros [| e es]; simpl;
    try reflexivity.
  rewrite IH. reflexivity.
Qed.

Lemma nth_error_paired {A B : Type} (j : B -> json) (fs : list (json -> A))
  (es : list B) :
  forall i f e,
    nth_error fs i = Some f -> nth_error es i = Some e ->
    nth_error (map (fun pair => fst pair (j (snd pair))) (combine fs es)) i
    = Some (f (j e)).
Proof.
  revert es. induction fs as [| f0 fs IH]; intros es i f e Hf He.
  - destruct i; discriminate Hf.
  - destruct es as [| e0 es]; [destruct i; discriminate He |].
    destruct i as [| i]; simpl in *.
    + injection Hf as ->. injection He as ->. reflexivity.
    + apply IH; assumption.
Qed.

Lemma relation_unit_records_length (l : list list_item) :
  forallb is_unit l = true ->
  List.length (flat_map (fun item => match item with
                                     | Unit u => [relation_record u]
                                     | Name _ => []
                                     end) l)
  = List.length l.
Proof.
  induction l as [| item l IH]; intros H; [reflexivity |].
  simpl in H. apply andb_true_iff in H. destruct H as [Hi Hl].
  destruct item; [discriminate Hi |]. simpl. rewrite (IH Hl). reflexivity.
Qed.

Lemma unit_records_length (c : zip_category)
  (p : preprocessed_sql_analysis_result) :
  bundle_ok p = true -> List.length (unit_records c p) = unit_count c p.
Proof.
  intros Hok. destruct c; simpl.
  - apply length_map.
  - apply relation_unit_records_length. exact Hok.
  - apply length_map.
Qed.

(** One test of the chain on a reply that is a dictionary. *)
Lemma bind_and_then_get {B : Type} (kvs : list (string * json)) (a : bool)
  (key : string) (d : json) (k : bool -> M B)
  (results : list ExplanationRecord) :
  Json.truthy d = false ->
  bind (and_then a (Json.get (JDict kvs) key d)) k results
  = k (a && reply_has kvs key) results.
Proof.
  intros Hd. unfold bind, and_then, Json.get, reply_has, Py.get_default.
  destruct a; [| reflexivity].
  destruct (Py.lookup key kvs); cbn [ret andb]; rewrite ?Hd; reflexivity.
Qed.

Lemma bind_lift_getitem {B : Type} (kvs : list (string * json))
  (key : string) (v : json) (k : json -> M B)
  (results : list ExplanationRecord) :
  Py.lookup key kvs = Some v ->
  bind (lift (Json.getitem (JDict kvs) key)) k results = k v results.
Proof.
  intros H. unfold bind, lift, Json.getitem. rewrite H. reflexivity.
Qed.

Lemma unmatched_elsewhere_unfold (c : zip_category)
  (p : preprocessed_sql_analysis_result) (kvs : list (string * json)) :
  unmatched_elsewhere c p kvs = true ->
  forall key, In key (other_categories c) ->
    bundle_has p key && reply_has kvs key = false.
Proof.
  intros H key Hin. unfold unmatched_elsewhere in H.
  rewrite forallb_forall in H. apply negb_true_iff. apply H. exact Hin.
Qed.

Lemma truthy_list_of_strings (es : list string) :
  Json.truthy (JList (map JStr es)) = negb (List.length es =? 0)%nat.
Proof. simpl. rewrite length_map. reflexivity. Qed.

Lemma combine_nil_r {A B : Type} (l : list A) : combine l (@nil B) = [].
Proof. destruct l; reflexivity. Qed.

Lemma paired_records_nil (c : zip_category)
  (p : preprocessed_sql_analysis_result) (es : list string) :
  unit_records c p = [] \/ es = [] -> paired_records c p es = [].
Proof.
  unfold paired_records. intros [H | H]; rewrite H.
  - reflexivity.
  - rewrite combine_nil_r. reflexivity.
Qed.

(** The chain on a reply that holds explanations for category [c] and
    nothing the bundle also holds for another category. *)
Lemma match_reply_pairs (c : zip_category)
  (p : preprocessed_sql_analysis_result) (kvs : list (string * json))
  (es : list string) :
  bundle_ok p = true ->
  Py.lookup (category_key c) kvs = Some (JList (map JStr es)) ->
  unmatched_elsewhere c p kvs = true ->
  forall results,
    match_reply p (JDict kvs) results
    = ((results ++ paired_records c p es)%list, inr tt).
Proof.
  intros Hok Hget Hun results.
  pose proof (unmatched_elsewhere_unfold c p kvs Hun) as Hother.
  assert (Hhas : reply_has kvs (category_key c)
                 = negb (List.length es =? 0)%nat).
  { unfold reply_has. rewrite Hget. apply truthy_list_of_strings. }
  unfold match_reply. cbv zeta.
  change (is_true (VSelect (p_selectItems p))) with true.
  destruct c; cbn [category_key] in Hget, Hhas.
  - (* groupByKeys *)
    assert (H1 : is_true (VFilter (p_filter p)) && reply_has kvs "filter"
                 = false) by (apply (Hother "filter"); simpl; auto).
    assert (H3 : is_true (VItems (p_relation p)) && reply_has kvs "relation"
                 = false) by (apply (Hother "relation"); simpl; auto).
    assert (H4 : true && reply_has kvs "selectItems" = false)
      by (apply (Hother "selectItems"); simpl; auto).
    assert (H5 : is_true (VTexts (p_sortings p)) && reply_has kvs "sortings"
                 = false) by (apply (Hother "sortings"); simpl; auto).
    rewrite bind_and_then_get, H1 by reflexivity.
    rewrite bind_and_then_get, Hhas by reflexivity.
    destruct (p_groupByKeys p) as [| u us] eqn:Hunits.
    + cbn [is_true py_len List.length Nat.eqb negb andb].
      rewrite bind_and_then_get, H3 by reflexivity.
      rewrite bind_and_then_get, H4 by reflexivity.
      rewrite bind_and_then_get, H5 by reflexivity.
      rewrite paired_records_nil, app_nil_r; [reflexivity |].
      left. simpl. rewrite Hunits. reflexivity.
    + destruct es as [| e es].
      * cbn [is_true py_len List.length Nat.eqb negb andb].
        rewrite bind_and_then_get, H3 by reflexivity.
        rewrite bind_and_then_get, H4 by reflexivity.
        rewrite bind_and_then_get, H5 by reflexivity.
        rewrite paired_records_nil, app_nil_r; [reflexivity | right; reflexivity].
      * cbn [is_true py_len List.length Nat.eqb negb andb].
        rewrite (bind_lift_getitem kvs _ _ _ _ Hget).
        unfold bind at 1. cbn [Json.iterate lift ret].
        rewrite (for_each_append
                   (fun pair => expression_record "groupByKeys"
                                  (fst pair) (snd pair))).
        rewrite map_combine_curry, map_combine_apply.
        unfold paired_records. cbn [unit_records]. rewrite Hunits.
        reflexivity.
  - (* relation *)
    assert (H1 : is_true (VFilter (p_filter p)) && reply_has kvs "filter"
                 = false) by (apply (Hother "filter"); simpl; auto).
    assert (H2 : is_true (VTexts (p_groupByKeys p))
                 && reply_has kvs "groupByKeys" = false)
      by (apply (Hother "groupByKeys"); simpl; auto).
    assert (H4 : true && reply_has kvs "selectItems" = false)
      by (apply (Hother "selectItems"); simpl; auto).
    assert (H5 : is_true (VTexts (p_sortings p)) && reply_has kvs "sortings"
                 = false) by (apply (Hother "sortings"); simpl; auto).
    rewrite bind_and_then_get, H1 by reflexivity.
    rewrite bind_and_then_get, H2 by reflexivity.
    rewrite bind_and_then_get, Hhas by reflexivity.
    unfold bundle_ok in Hok.
    destruct (p_relation p) as [| u us] eqn:Hunits.
    + cbn [is_true py_len List.length Nat.eqb negb andb].
      rewrite bind_and_then_get, H4 by reflexivity.
      rewrite bind_and_then_get, H5 by reflexivity.
      rewrite paired_records_nil, app_nil_r; [reflexivity |].
      left. simpl. rewrite Hunits. reflexivity.
    + destruct es as [| e es].
      * cbn [is_true py_len List.length Nat.eqb negb andb].
        rewrite bind_and_then_get, H4 by reflexivity.
        rewrite bind_and_then_get, H5 by reflexivity.
        rewrite paired_records_nil, app_nil_r; [reflexivity | right; reflexivity].
      * cbn [is_true py_len List.length Nat.eqb negb andb].
        rewrite (bind_lift_getitem kvs _ _ _ _ Hget).
        unfold bind at 1. cbn [Json.iterate lift ret].
        rewrite (for_each_relation _ Hok).
        rewrite map_combine_apply.
        unfold paired_records. cbn [unit_records]. rewrite Hunits.
        reflexivity.
  - (* sortings *)
    assert (H1 : is_true (VFilter (p_filter p)) && reply_has kvs "filter"
                 = false) by (apply (Hother "filter"); simpl; auto).
    assert (H2 : is_true (VTexts (p_groupByKeys p))
                 && reply_has kvs "groupByKeys" = false)
      by (apply (Hother "groupByKeys"); simpl; auto).
    assert (H3 : is_true (VItems (p_relation p)) && reply_has kvs "relation"
                 = false) by (apply (Hother "relation"); simpl; auto).
    assert (H4 : true && reply_has kvs "selectItems" = false)
      by (apply (Hother "selectItems"); simpl; auto).
    rewrite bind_and_then_get, H1 by reflexivity.
    rewrite bind_and_then_get, H2 by reflexivity.
    rewrite bind_and_then_get, H3 by reflexivity.
    rewrite bind_and_then_get, H4 by reflexivity.
    rewrite bind_and_then_get, Hhas by reflexivity.
    destruct (p_sortings p) as [| u us] eqn:Hunits.
    + cbn [is_true py_len List.length Nat.eqb negb andb].
      rewrite paired_records_nil, app_nil_r; [reflexivity |].
      left. simpl. rewrite Hunits. reflexivity.
    + destruct es as [| e es].
      * cbn [is_true py_len List.length Nat.eqb negb andb].
        rewrite paired_records_nil, app_nil_r; [reflexivity | right; reflexivity].
      * cbn [is_true py_len List.length Nat.eqb negb andb].
        rewrite (bind_lift_getitem kvs _ _ _ _ Hget).
        unfold bind at 1. cbn [Json.iterate lift ret].
        rewrite (for_each_append
                   (fun pair => expression_record "sortings"
                                  (fst pair) (snd pair))).
        rewrite map_combine_curry, map_combine_apply.
        unfold paired_records. cbn [unit_records]. rewrite Hunits.
        reflexivity.
Qed.

Lemma paired_as_map {U B A : Type} (h : U -> json -> A) (j : B -> json)
  (l : list U) (es : list B) :
  map (fun pair => fst pair (j (snd pair))) (combine (map h l) es)
  = map (fun pair => h (fst pair) (j (snd pair))) (combine l es).
Proof.
  revert es. induction l as [| u l IH]; intros [| e es]; simpl;
    try reflexivity.
  rewrite IH. reflexivity.
Qed.

Lemma relation_unit_records (l : list list_item) :
  flat_map (fun item => match item with
                        | Unit u => [relation_record u]
                        | Name _ => []
                        end) l
  = map relation_record (relation_units l).
Proof.
  induction l as [| item l IH]; [reflexivity |].
  destruct item as [s | u]; simpl; rewrite IH; reflexivity.
Qed.

Lemma relation_units_all (l : list list_item) :
  forallb is_unit l = true -> map Unit (relation_units l) = l.
Proof.
  induction l as [| item l IH]; intros H; [reflexivity |].
  simpl in H. apply andb_true_iff in H. destruct H as [Hi Hl].
  destruct item as [s | u]; [discriminate Hi |].
  simpl. rewrite (IH Hl). reflexivity.
Qed.

Lemma nth_error_map_combine {U B A : Type} (f : U * B -> A) (l : list U)
  (es : list B) :
  forall i u e,
    nth_error l i = Some u -> nth_error es i = Some e ->
    nth_error (map f (combine l es)) i = Some (f (u, e)).
Proof.
  revert es. induction l as [| u0 l IH]; intros es i u e Hu He.
  - destruct i; discriminate Hu.
  - destruct es as [| e0 es]; [destruct i; discriminate He |].
    destruct i as [| i]; simpl in *.
    + injection Hu as ->. injection He as ->. reflexivity.
    + apply IH; assumption.
Qed.

Lemma nth_error_in_range {A : Type} (l : list A) (i : nat) :
  i < List.length l -> exists a, nth_error l i = Some a.
Proof.
  intros H. destruct (nth_error l i) as [a |] eqn:Hn; [exists a; reflexivity |].
  apply nth_error_None in Hn. lia.
Qed.

(** C5: for [groupByKeys], [relation] and [sortings], a reply whose
    decoded ["results"] holds [m] explanation strings for the category,
    and nothing the bundle also holds for another category, adds exactly
    [min n m] records to [results], [n] being the number of the bundle's
    units: record [i] has the category as type and, as payload, the id
    and the values of unit [i] with explanation [i]; the surplus on
    either side is dropped, and the turn ends without an exception. *)
Theorem reconcile_pairs_by_position (loads : string -> option json)
  (c : zip_category) (p : preprocessed_sql_analysis_result)
  (generate : json) (kvs : list (string * json)) (es : list string) :
  bundle_ok p = true ->
  parse_reply loads generate = inr (JDict kvs) ->
  Py.lookup (category_key c) kvs = Some (JList (map JStr es)) ->
  unmatched_elsewhere c p kvs = true ->
  let records :=
    match c with
    | GroupByKeys =>
        map (fun pair =>
               mkRecord "groupByKeys"
                 (ExpressionPayload (id (fst pair)) (values (fst pair))
                    (JStr (snd pair))))
            (combine (p_groupByKeys p) es)
    | Relation =>
        map (fun pair =>
               mkRecord "relation"
                 (RelationPayload (id (fst pair)) (values (fst pair))
                    (JStr (snd pair))))
            (combine (relation_units (p_relation p)) es)
    | Sortings =>
        map (fun pair =>
               mkRecord "sortings"
                 (ExpressionPayload (id (fst pair)) (values (fst pair))
                    (JStr (snd pair))))
            (combine (p_sortings p) es)
    end in
  (forall results,
     reconcile_reply loads p generate results
     = ((results ++ records)%list, inr tt))
  /\ List.length records = Nat.min (unit_count c p) (List.length es)
  /\ (forall i e,
        nth_error es i = Some e ->
        i < unit_count c p ->
        match c with
        | GroupByKeys =>
            exists u,
              nth_error (p_groupByKeys p) i = Some u
              /\ nth_error records i
                 = Some (mkRecord "groupByKeys"
                           (ExpressionPayload (id u) (values u) (JStr e)))
        | Relation =>
            exists u,
              nth_error (p_relation p) i = Some (Unit u)
              /\ nth_error records i
                 = Some (mkRecord "relation"
                           (RelationPayload (id u) (values u) (JStr e)))
        | Sortings =>
            exists u,
              nth_error (p_sortings p) i = Some u
              /\ nth_error records i
                 = Some (mkRecord "sortings"
                           (ExpressionPayload (id u) (values u) (JStr e)))
        end).
Proof.
  intros Hok Hparse Hget Hun records.
  assert (Hall : map Unit (relation_units (p_relation p)) = p_relation p)
    by (apply relation_units_all; exact Hok).
  split; [| split].
  - intros results. unfold reconcile_reply, bind at 1. rewrite Hparse.
    cbn [lift ret].
    rewrite (match_reply_pairs c p kvs es Hok Hget Hun results).
    f_equal. f_equal. unfold paired_records, records.
    destruct c; cbn [unit_records].
    + rewrite (paired_as_map (expression_record "groupByKeys") JStr).
      reflexivity.
    + rewrite relation_unit_records, (paired_as_map relation_record JStr).
      reflexivity.
    + rewrite (paired_as_map (expression_record "sortings") JStr).
      reflexivity.
  - unfold records. destruct c; cbn [unit_count];
      rewrite length_map, length_combine; try reflexivity.
    rewrite <- Hall at 2. rewrite length_map. reflexivity.
  - intros i e He Hi. subst records.
    destruct c; cbn [unit_count] in Hi; cbv beta iota.
    + destruct (nth_error_in_range _ i Hi) as [u Hu]. exists u.
      split; [exact Hu |].
      rewrite (nth_error_map_combine _ _ _ i u e Hu He). reflexivity.
    + rewrite <- Hall in Hi. rewrite length_map in Hi.
      destruct (nth_error_in_range _ i Hi) as [u Hu]. exists u. split.
      * rewrite <- Hall. apply map_nth_error. exact Hu.
      * rewrite (nth_error_map_combine _ _ _ i u e Hu He). reflexivity.
    + destruct (nth_error_in_range _ i Hi) as [u Hu]. exists u.
      split; [exact Hu |].
      rewrite (nth_error_map_combine _ _ _ i u e Hu He). reflexivity.
Qed.

(** One group-by unit and two explanations, two relation units and one
    explanation, two sortings and two explanations: each time the
    records of the shorter side, unit [i] with explanation [i]. *)
Lemma reconcile_pairs_by_position_witness :
  reconcile_reply Sample.loads Sample.bundle (Sample.reply "G") []
  = ([mkRecord "groupByKeys"
        (ExpressionPayload "g1" "city" (JStr "by city"))],
     inr tt)
  /\ reconcile_reply Sample.loads Sample.bundle (Sample.reply "R") []
     = ([mkRecord "relation"
           (RelationPayload "t1" (TableValues "TABLE" "orders")
              (JStr "joins orders"))],
        inr tt)
  /\ reconcile_reply
       (fun _ : string =>
          Some (JDict [("results",
                        JDict [("sortings",
                                JList [JStr "newest first";
                                       JStr "then by name"])])]))
       (mkBundle None [] [] (mkSelectResult [] [])
          [mkUnit "day DESC" "o1"; mkUnit "name ASC" "o2"])
       (Sample.reply "text") []
     = ([mkRecord "sortings"
           (ExpressionPayload "o1" "day DESC" (JStr "newest first"));
         mkRecord "sortings"
           (ExpressionPayload "o2" "name ASC" (JStr "then by name"))],
        inr tt).
Proof.
  split; [| split].
  - exact (proj1 (reconcile_pairs_by_position Sample.loads GroupByKeys
                    Sample.bundle (Sample.reply "G")
                    [("groupByKeys", JList [JStr "by city"; JStr "spare"])]
                    ["by city"; "spare"] eq_refl eq_refl eq_refl eq_refl) []).
  - exact (proj1 (reconcile_pairs_by_position Sample.loads Relation
                    Sample.bundle (Sample.reply "R")
                    [("relation", JList [JStr "joins orders"])]
                    ["joins orders"] eq_refl eq_refl eq_refl eq_refl) []).
  - exact (proj1 (reconcile_pairs_by_position
                    (fun _ : string =>
                       Some (JDict [("results",
                                     JDict [("sortings",
                                             JList [JStr "newest first";
                                                    JStr "then by name"])])]))
                    Sortings
                    (mkBundle None [] [] (mkSelectResult [] [])
                       [mkUnit "day DESC" "o1"; mkUnit "name ASC" "o2"])
                    (Sample.reply "text")
                    [("sortings",
                      JList [JStr "newest first"; JStr "then by name"])]
                    ["newest first"; "then by name"]
                    eq_refl eq_refl eq_refl eq_refl) []).
Defined.

(** ** Explanation dispatcher *)

Lemma gather_outcome {A : Type} (tasks : list (exn + A)) :
  returned (gather tasks) = forallb returned tasks
  /\ match gather tasks with
     | inr results => tasks = map inr results
     | inl e => In (inl e) tasks
     end.
Proof.
  induction tasks as [| task rest [IHr IHm]]; [split; reflexivity |].
  cbn [gather forallb]. destruct task as [e | a].
  - split; [reflexivity | left; reflexivity].
  - cbn [returned andb]. destruct (gather rest) as [e | results].
    + split; [exact IHr | right; exact IHm].
    + split; [exact IHr | cbn [map]; rewrite IHm; reflexivity].
Qed.

(** C9 as stated fails: of two calls the first returns its reply and
    the second times out; the batch raises, and the reply of the first
    call is handed to nobody. *)
Lemma dispatcher_failure_drops_sibling_reply :
  let generator_run := fun text : json =>
    match text with
    | JStr "explain the filter" => inr (Sample.reply "G")
    | _ => inl TimeoutError
    end in
  let prompts :=
    [JDict [("prompt", JStr "explain the filter")];
     JDict [("prompt", JStr "explain the relation")]] in
  map (_task generator_run) prompts
  = [inr (Sample.reply "G"); inl TimeoutError]
  /\ generate_sql_explanation generator_run prompts = inl TimeoutError.
Proof. split; reflexivity. Qed.

(** C9, amended: a batch is all or nothing.  [generate_sql_explanation]
    returns exactly when every call of the batch returns, and it then
    hands on the reply structures of the calls, unchanged and in the
    order of the requests; when a call fails it raises the exception of
    a failing call, and no reply of the batch is handed on. *)
Theorem dispatcher_all_or_nothing (generator_run : json -> exn + json)
  (prompts : list json) :
  returned (generate_sql_explanation generator_run prompts)
  = forallb returned (map (_task generator_run) prompts)
  /\ match generate_sql_explanation generator_run prompts with
     | inr replies => map (_task generator_run) prompts = map inr replies
     | inl e => In (inl e) (map (_task generator_run) prompts)
     end.
Proof.
  unfold generate_sql_explanation. apply gather_outcome.
Qed.

(** ** Bundles of the preprocessor and replies that raise *)

(** X11: every bundle the preprocessor builds holds units only in its
    relation list, whatever the caller's list holds: no name and no
    leftover of an earlier call reaches a bundle. *)
Lemma preprocessor_bundles_ok (sql_analysis_results : list sql_analysis_result) :
  forall (cte_names : list list_item)
         (selected_data_sources : list (list data_source)),
    forallb bundle_ok
      (fst (SQLAnalysisPreprocessor_run cte_names selected_data_sources
              sql_analysis_results))
    = true.
Proof.
  induction sql_analysis_results as [| a rest IH]; intros cte_names sds.
  - reflexivity.
  - cbn [SQLAnalysisPreprocessor_run].
    destruct (negb (Py.get_default (isSubqueryOrCte a) false)); [| apply IH].
    unfold preprocess_one.
    destruct (ar_relation a) as [r |].
    + pose proof (compose_relation_units_only r cte_names) as Hr.
      destruct (_compose_sql_expression_of_relation_type r cte_names)
        as [relation cte_names'].
      specialize (IH cte_names' sds).
      destruct (SQLAnalysisPreprocessor_run cte_names' sds rest)
        as [bundles cte_names''].
      cbn [fst forallb] in *. unfold bundle_ok at 1. cbn [p_relation].
      rewrite Hr, IH. reflexivity.
    + specialize (IH cte_names sds).
      destruct (SQLAnalysisPreprocessor_run cte_names sds rest)
        as [bundles cte_names''].
      cbn [fst forallb] in *. rewrite IH. reflexivity.
Qed.

(** A reply whose text the decoder rejects raises. *)
Lemma malformed_json_raises (loads : string -> option json)
  (p : preprocessed_sql_analysis_result) (generate : json)
  (text : string) (rest : list json) :
  Json.getitem generate "replies" = inr (JList (JStr text :: rest)) ->
  loads text = None ->
  raises loads p generate = true.
Proof.
  intros Hreplies Hloads.
  unfold raises, reconcile_reply, bind, parse_reply, orjson_loads.
  rewrite Hreplies. cbn [Json.getitem0]. rewrite Hloads. reflexivity.
Qed.

(** A decoded document without the key ["results"] raises. *)
Lemma missing_results_raises (loads : string -> option json)
  (p : preprocessed_sql_analysis_result) (generate : json)
  (text : string) (rest : list json) (kvs : list (string * json)) :
  Json.getitem generate "replies" = inr (JList (JStr text :: rest)) ->
  loads text = Some (JDict kvs) ->
  Py.lookup "results" kvs = None ->
  raises loads p generate = true.
Proof.
  intros Hreplies Hloads Hkey.
  unfold raises, reconcile_reply, bind, parse_reply, orjson_loads.
  rewrite Hreplies. cbn [Json.getitem0]. rewrite Hloads.
  unfold Json.getitem. rewrite Hkey. reflexivity.
Qed.

(** ["results"] of a type other than a dictionary raises: the select
    result of the bundle is always true, so [get] is called on it at the
    latest in the fourth test. *)
Lemma wrong_type_results_raises (p : preprocessed_sql_analysis_result)
  (r : json) :
  (forall kvs, r <> JDict kvs) ->
  exists e, match_reply p r [] = ([], inl e).
Proof.
  intros Hr. unfold match_reply. cbv zeta.
  change (is_true (VSelect (p_selectItems p))) with true.
  assert (Hget : forall key d, Json.get r key d = inl AttributeError).
  { intros key d. destruct r; try reflexivity. exfalso. eapply Hr. reflexivity. }
  rewrite !Hget. unfold bind, and_then, raise, ret.
  destruct (is_true (VFilter (p_filter p)));
    [eexists; reflexivity |].
  destruct (is_true (VTexts (p_groupByKeys p)));
    [eexists; reflexivity |].
  destruct (is_true (VItems (p_relation p)));
    [eexists; reflexivity |].
  eexists; reflexivity.
Qed.

(* ================================================================== *)
(** * Further properties *)
(* ================================================================== *)

(** ** Filter flattener: nested nodes *)

Lemma string_length_append (s1 s2 : string) :
  String.length (s1 ++ s2) = String.length s1 + String.length s2.
Proof. induction s1 as [| c s1 IH]; simpl; [reflexivity | now rewrite IH]. Qed.

Lemma repr_char_length (q c : ascii) : 1 <= String.length (Py.repr_char q c).
Proof.
  unfold Py.repr_char.
  repeat match goal with
         | |- context [if ?b then _ else _] => destruct b
         end; simpl; lia.
Qed.

Lemma concat_repr_length (q : ascii) (cs : list ascii) :
  List.length cs
  <= String.length (String.concat EmptyString (map (Py.repr_char q) cs)).
Proof.
  induction cs as [| c cs IH]; [simpl; lia |].
  cbn [map List.length]. pose proof (repr_char_length q c) as Hc.
  destruct cs as [| c' cs].
  - simpl. simpl in Hc. lia.
  - change (String.concat EmptyString
              (Py.repr_char q c :: map (Py.repr_char q) (c' :: cs)))
      with (Py.repr_char q c ++ EmptyString
            ++ String.concat EmptyString (map (Py.repr_char q) (c' :: cs))).
    rewrite !string_length_append. simpl String.length at 2.
    cbn [List.length] in *. lia.
Qed.

Lemma list_ascii_length (s : string) :
  List.length (list_ascii_of_string s) = String.length s.
Proof. induction s as [| c s IH]; simpl; [reflexivity | now rewrite IH]. Qed.

(** [repr] adds at least the two quotes. *)
Lemma repr_str_length (s : string) :
  String.length s + 2 <= String.length (Py.repr_str s).
Proof.
  unfold Py.repr_str. cbn [String.length]. rewrite string_length_append.
  pose proof (concat_repr_length (Py.repr_quote s) (list_ascii_of_string s)).
  rewrite list_ascii_length in H. unfold Py.char1.
  change (String.length (String (Py.repr_quote s) EmptyString)) with 1.
  lia.
Qed.

(** Below the top, the formatted text of a tree is at least as long as
    its infix text, and longer when the tree is an [AND]/[OR] node. *)
Lemma formatted_length (f : filter_analysis) :
  expr_and_or_only f = true ->
  String.length (infix_concatenation f)
  + (if is_leaf f then 0 else 1)
  <= String.length
       (format_filter_result (_compose_sql_expression_of_filter_type f false)).
Proof.
  induction f as [node fid | op l IHl r IHr fid | type fid]; intros H.
  - simpl. lia.
  - simpl in H. apply andb_true_iff in H. destruct H as [Hl Hr].
    specialize (IHl Hl). specialize (IHr Hr).
    cbn [_compose_sql_expression_of_filter_type format_filter_result
         infix_concatenation is_leaf values id].
    set (fl := format_filter_result
                 (_compose_sql_expression_of_filter_type l false)) in *.
    set (fr := format_filter_result
                 (_compose_sql_expression_of_filter_type r false)) in *.
    pose proof (repr_str_length (fl ++ " " ++ op_name op ++ " " ++ fr)) as Hv.
    rewrite !string_length_append in *.
    simpl String.length at 1 3 in Hv.
    cbn [String.length] in *. lia.
  - discriminate H.
Qed.

(** X1: for a filter tree whose root is an [AND]/[OR] node over subtrees
    of [EXPR] leaves and [AND]/[OR] nodes, the text of the unit equals
    the infix concatenation of the leaves exactly when both children of
    the root are leaves; with an [AND]/[OR] child the text is longer,
    because the child is printed as a dictionary. *)
Theorem filter_text_is_infix_iff_flat (op : bool_op) (l r : filter_analysis)
  (fid : option string) :
  expr_and_or_only l = true ->
  expr_and_or_only r = true ->
  result_text
    (_compose_sql_expression_of_filter_type (BoolExpr op l r fid) true)
  = infix_concatenation (BoolExpr op l r fid)
  <-> is_leaf l && is_leaf r = true.
Proof.
  intros Hl Hr. split.
  - intros Heq. apply (f_equal String.length) in Heq.
    cbn [_compose_sql_expression_of_filter_type result_text values
         infix_concatenation] in Heq.
    rewrite !string_length_append in Heq.
    pose proof (formatted_length l Hl) as Fl.
    pose proof (formatted_length r Hr) as Fr.
    destruct (is_leaf l), (is_leaf r); try reflexivity; exfalso; lia.
  - intros H. apply andb_true_iff in H. destruct H as [Ll Lr].
    destruct l; try discriminate Ll. destruct r; try discriminate Lr.
    reflexivity.
Qed.

(** An [AND] node under an [OR] root: the text is not the infix text. *)
Lemma filter_text_is_infix_iff_flat_witness :
  let inner := BoolExpr AND (EXPR "a" None) (EXPR "b" None) None in
  result_text
    (_compose_sql_expression_of_filter_type
       (BoolExpr OR inner (EXPR "c" None) None) true)
  <> infix_concatenation (BoolExpr OR inner (EXPR "c" None) None).
Proof.
  intros inner Heq.
  apply (proj1 (filter_text_is_infix_iff_flat OR inner (EXPR "c" None) None
                  eq_refl eq_refl)) in Heq.
  discriminate Heq.
Defined.

(** ** Relation flattener: what is emitted and what is left behind *)

Lemma name_in_app (x : string) (l1 l2 : list list_item) :
  name_in x (l1 ++ l2) = name_in x l1 || name_in x l2.
Proof. unfold name_in. apply existsb_app. Qed.

Lemma name_in_units (x : string) (l : list list_item) :
  forallb is_unit l = true -> name_in x l = false.
Proof.
  induction l as [| item l IH]; intros H; [reflexivity |].
  simpl in H. apply andb_true_iff in H. destruct H as [Hi Hl].
  destruct item; [discriminate Hi |]. simpl. apply IH. exact Hl.
Qed.

Lemma units_are_join_units (r : relation) :
  forallb is_join_unit (own_units r) = true
  /\ forallb is_join_unit (other_units r) = true.
Proof.
  induction r as [name rid | k crit srcs l IHl r IHr rid | rid].
  - split; reflexivity.
  - destruct IHl as [IHl1 IHl2]. destruct IHr as [IHr1 IHr2].
    cbn [own_units other_units].
    destruct (_is_subquery_or_has_subquery_child (JOIN k crit srcs l r rid)).
    + split; reflexivity.
    + split.
      * cbn [forallb]. rewrite forallb_app, IHl2, IHr2. reflexivity.
      * rewrite forallb_app, IHl1, IHr1. reflexivity.
  - split; reflexivity.
Qed.

(** X2: for a relation tree without [SUBQUERY] nodes, the returned list
    has one unit per join at even depth, plus one when the root is a
    [TABLE] that is no CTE name; the caller's list grows by one element
    per join at odd depth; every join lies at even or at odd depth. *)
Theorem relation_units_by_depth (r : relation) (cte_names : list list_item) :
  has_subquery r = false ->
  List.length (fst (_compose_sql_expression_of_relation_type r cte_names))
  = joins_even r + count_top_level_tables r cte_names
  /\ List.length (snd (_compose_sql_expression_of_relation_type r cte_names))
     = List.length cte_names + joins_odd r
  /\ joins_even r + joins_odd r = count_joins r.
Proof.
  intros H. rewrite compose_relation_lists. cbn [fst snd].
  destruct (units_count_by_depth r H) as [Hown Hother].
  rewrite !length_app, top_table_units_count, Hown, Hother.
  pose proof (joins_even_odd r). lia.
Qed.

(** Three joins in a left-deep chain: two units returned, one left in
    the caller's list. *)
Lemma relation_units_by_depth_witness :
  let t := TABLE "t" None in
  let j3 := JOIN CROSS_JOIN "c3" [] t t None in
  let j2 := JOIN LEFT_JOIN "c2" [] j3 t None in
  let j1 := JOIN INNER_JOIN "c1" [] j2 t None in
  List.length (fst (_compose_sql_expression_of_relation_type j1 [Name "x"]))
  = 2
  /\ List.length (snd (_compose_sql_expression_of_relation_type j1 [Name "x"]))
     = 2.
Proof.
  intros t j3 j2 j1.
  pose proof (relation_units_by_depth j1 [Name "x"] eq_refl) as H.
  split; [exact (proj1 H) | exact (proj1 (proj2 H))].
Defined.

(** X3: a [TABLE] below a join is never emitted: for a tree whose root
    is a join, every element of the returned list, and every element
    added to the caller's list, is the unit of a join. *)
Theorem relation_nested_tables_not_emitted (kind : join_kind)
  (criteria : string) (exprSources : list expr_source)
  (l r : relation) (rid : option string) (cte_names : list list_item) :
  let tree := JOIN kind criteria exprSources l r rid in
  forallb is_join_unit
    (fst (_compose_sql_expression_of_relation_type tree cte_names)) = true
  /\ exists added,
       snd (_compose_sql_expression_of_relation_type tree cte_names)
       = (cte_names ++ added)%list
       /\ forallb is_join_unit added = true.
Proof.
  intros tree. rewrite compose_relation_lists. cbn [fst snd].
  destruct (units_are_join_units tree) as [Hown Hother]. split.
  - cbn [top_table_units app]. exact Hown.
  - exists (other_units tree). split; [reflexivity | exact Hother].
Qed.

(** X4: what the flattener leaves in the caller's list never changes
    which names count as CTE names, so a later call with the same list
    returns what it would return with the list as it was. *)
Theorem relation_leftovers_do_not_change_results (r1 r2 : relation)
  (cte_names : list list_item) :
  let cte_names' :=
    snd (_compose_sql_expression_of_relation_type r1 cte_names) in
  (forall x, name_in x cte_names' = name_in x cte_names)
  /\ fst (_compose_sql_expression_of_relation_type r2 cte_names')
     = fst (_compose_sql_expression_of_relation_type r2 cte_names).
Proof.
  intros cte_names'.
  assert (Hin : forall x, name_in x cte_names' = name_in x cte_names).
  { intros x. unfold cte_names'. rewrite compose_relation_lists. cbn [snd].
    rewrite name_in_app.
    rewrite (name_in_units x (other_units r1)
               (proj2 (own_units_are_units r1))).
    apply orb_false_r. }
  split; [exact Hin |].
  rewrite !compose_relation_lists. cbn [fst]. f_equal.
  destruct r2 as [name rid | |]; try reflexivity.
  cbn [top_table_units]. rewrite Hin. reflexivity.
Qed.

(** X5: a [SUBQUERY], and a join with a [SUBQUERY] as its left or right
    child, gives no unit and leaves the caller's list alone, whatever
    the other child holds. *)
Theorem relation_subquery_gives_nothing (kind : join_kind) (criteria : string)
  (exprSources : list expr_source) (other : relation)
  (sid rid : option string) (cte_names : list list_item) :
  _compose_sql_expression_of_relation_type (SUBQUERY sid) cte_names
  = ([], cte_names)
  /\ _compose_sql_expression_of_relation_type
       (JOIN kind criteria exprSources (SUBQUERY sid) other rid) cte_names
     = ([], cte_names)
  /\ _compose_sql_expression_of_relation_type
       (JOIN kind criteria exprSources other (SUBQUERY sid) rid) cte_names
     = ([], cte_names).
Proof.
  unfold _compose_sql_expression_of_relation_type.
  split; [reflexivity | split].
  - apply collect_relations_skip.
    unfold _is_subquery_or_has_subquery_child. cbn [relation_type].
    rewrite join_name_not_subquery, endswith_join_name. reflexivity.
  - apply collect_relations_skip.
    unfold _is_subquery_or_has_subquery_child. cbn [relation_type].
    rewrite join_name_not_subquery, endswith_join_name.
    rewrite (String.eqb_refl "SUBQUERY"), orb_true_r. reflexivity.
Qed.

(** ** Select items: how many are kept *)

Lemma filter_split_length {A : Type} (keep pick : A -> bool) (l : list A) :
  List.length (filter (fun x => keep x && pick x) l)
  + List.length (filter (fun x => keep x && negb (pick x)) l)
  = List.length (filter keep l).
Proof.
  induction l as [| x l IH]; [reflexivity |].
  cbn [filter]. destruct (keep x), (pick x); simpl; lia.
Qed.

(** X6: the two sub-lists together hold one unit per retained select
    item, so never more units than there are select items. *)
Theorem select_units_count (select_items : list select_item)
  (selected_data_sources : list (list data_source)) :
  let result :=
    _compose_sql_expression_of_select_type select_items selected_data_sources
  in
  List.length (withFunctionCallOrMathematicalOperation result)
  + List.length (withoutFunctionCallOrMathematicalOperation result)
  = List.length (filter (retained selected_data_sources) select_items)
  /\ List.length (withFunctionCallOrMathematicalOperation result)
     + List.length (withoutFunctionCallOrMathematicalOperation result)
     <= List.length select_items.
Proof.
  intros result. unfold result, _compose_sql_expression_of_select_type.
  rewrite select_loop.
  cbn [withFunctionCallOrMathematicalOperation
       withoutFunctionCallOrMathematicalOperation app].
  rewrite !length_map, filter_split_length. split; [reflexivity |].
  apply filter_length_le.
Qed.

Lemma retained_without_sources (sds : list (list data_source))
  (it : select_item) :
  concat sds = [] -> retained sds it = true.
Proof.
  intros H. unfold retained. rewrite H.
  destruct (si_exprSources it) as [[| first rest] |]; reflexivity.
Qed.

(** X7: when the selected data sources hold no entry (no list, or empty
    lists only), no select item is left out: the two sub-lists are the
    units of all items, split by the two flags, in input order. *)
Theorem select_keeps_all_without_sources (select_items : list select_item)
  (selected_data_sources : list (list data_source)) :
  concat selected_data_sources = [] ->
  _compose_sql_expression_of_select_type select_items selected_data_sources
  = mkSelectResult
      (map select_unit (filter has_function_call_or_math select_items))
      (map select_unit
         (filter (fun it => negb (has_function_call_or_math it)) select_items)).
Proof.
  intros H. unfold _compose_sql_expression_of_select_type.
  rewrite select_loop.
  cbn [withFunctionCallOrMathematicalOperation
       withoutFunctionCallOrMathematicalOperation app].
  f_equal; f_equal; apply filter_ext; intros it;
    rewrite (retained_without_sources _ it H); reflexivity.
Qed.

(** Two items, two empty lists of data sources: both items are kept,
    the one with a function call first. *)
Lemma select_keeps_all_without_sources_witness :
  let plain :=
    mkSelectItem "n" "name" (mkProperties "false" "false")
      (Some [mkExprSource "name" "users" "name"]) (Some "s1") in
  let total :=
    mkSelectItem "t" "sum(x)" (mkProperties "true" "false") None None in
  _compose_sql_expression_of_select_type [plain; total] [[]; []]
  = mkSelectResult [mkUnit (mkSelectValues "t" "sum(x)") EmptyString]
                   [mkUnit (mkSelectValues "n" "name") "s1"].
Proof.
  intros plain total.
  exact (select_keeps_all_without_sources [plain; total] [[]; []] eq_refl).
Defined.

(** ** Group-by keys *)

(** X8: the group-by units are the keys read list after list, in
    order, each with its expression and its id (the empty text when it
    has none); an empty inner list adds nothing, and the number of units
    is the total number of keys. *)
Theorem groupby_units_in_order (groupby_keys : list (list groupby_key)) :
  let units := _compose_sql_expression_of_groupby_type groupby_keys in
  map values units = map gk_expression (concat groupby_keys)
  /\ map id units
     = map (fun k => Py.get_default (gk_id k) EmptyString)
           (concat groupby_keys)
  /\ List.length units = List.length (concat groupby_keys).
Proof.
  intros units. unfold units, _compose_sql_expression_of_groupby_type.
  induction groupby_keys as [| l ls IH]; [repeat split |].
  cbn [flat_map concat]. rewrite !map_app, !length_app, !map_map, !length_map.
  destruct IH as [IH1 [IH2 IH3]]. rewrite IH1, IH2, IH3.
  repeat split.
Qed.

(** ** Instruction hints *)

(** X9: the instruction hint is the empty text exactly for a name that
    is none of the five categories. *)
Theorem hint_empty_iff_unknown (sql_analysis_type : string) :
  get_sql_explanation_prompt_given_analysis_type sql_analysis_type
  = EmptyString
  <-> ~ In sql_analysis_type category_names.
Proof.
  unfold get_sql_explanation_prompt_given_analysis_type, category_names.
  destruct (String.eqb_spec sql_analysis_type "filter") as [-> | N1];
    [split; [discriminate | intros H; exfalso; apply H; simpl; auto] |].
  destruct (String.eqb_spec sql_analysis_type "groupByKeys") as [-> | N2];
    [split; [discriminate | intros H; exfalso; apply H; simpl; auto] |].
  destruct (String.eqb_spec sql_analysis_type "relation") as [-> | N3];
    [split; [discriminate | intros H; exfalso; apply H; simpl; auto] |].
  destruct (String.eqb_spec sql_analysis_type "selectItems") as [-> | N4];
    [split; [discriminate | intros H; exfalso; apply H; simpl; auto 6] |].
  destruct (String.eqb_spec sql_analysis_type "sortings") as [-> | N5];
    [split; [discriminate | intros H; exfalso; apply H; simpl; auto 7] |].
  split; [| reflexivity].
  intros _ [H | [H | [H | [H | [H | []]]]]]; congruence.
Qed.

(** ** Analysis composer *)

(** The preprocessor returns one bundle per analysis result that is not
    flagged [isSubqueryOrCte] (an absent flag counts as false), so
    flagged results give no bundle. *)
Lemma preprocessor_bundle_count
  (sql_analysis_results : list sql_analysis_result) :
  forall (cte_names : list list_item)
         (selected_data_sources : list (list data_source)),
    List.length
      (fst (SQLAnalysisPreprocessor_run cte_names selected_data_sources
              sql_analysis_results))
    = List.length (filter not_subquery_or_cte sql_analysis_results).
Proof.
  induction sql_analysis_results as [| a rest IH]; intros cte_names sds.
  - reflexivity.
  - cbn [SQLAnalysisPreprocessor_run filter]. unfold not_subquery_or_cte at 1.
    destruct (negb (Py.get_default (isSubqueryOrCte a) false)); [| apply IH].
    destruct (preprocess_one cte_names sds a) as [bundle cte_names'].
    specialize (IH cte_names' sds).
    destruct (SQLAnalysisPreprocessor_run cte_names' sds rest)
      as [bundles cte_names''].
    cbn [fst List.length] in *. rewrite IH. reflexivity.
Qed.

(** X12: a bundle has a filter unit exactly when the analysis result has
    the key [filter]; this holds also for a filter node of a type that
    is not [EXPR], [AND] or [OR], whose unit has the empty text. *)
Theorem preprocessor_filter_presence (cte_names : list list_item)
  (selected_data_sources : list (list data_source))
  (a : sql_analysis_result) :
  let bundle := fst (preprocess_one cte_names selected_data_sources a) in
  is_true (VFilter (p_filter bundle))
  = match ar_filter a with
    | Some _ => true
    | None => false
    end
  /\ p_filter bundle
     = option_map
         (fun f =>
            mkUnit (result_text (_compose_sql_expression_of_filter_type f true))
                   (match f with
                    | UnknownFilter _ _ => EmptyString
                    | _ => Py.get_default (root_id f) EmptyString
                    end))
         (ar_filter a).
Proof.
  intros bundle. unfold bundle, preprocess_one.
  destruct (match ar_relation a with
            | Some r => _compose_sql_expression_of_relation_type r cte_names
            | None => ([], cte_names)
            end) as [relation cte_names'].
  cbn [fst p_filter].
  destruct (ar_filter a) as [f |]; [| split; reflexivity].
  destruct f as [node fid | op l r fid | type fid]; split; reflexivity.
Qed.

(** ** Prompt request builder over several bundles *)

Lemma collect_items_spec (kvs : list (string * bundle_value)) :
  (forall key value,
     In (key, value) kvs -> is_true value = true ->
     exists v, strip_ids key value = inr v) ->
  forall acc,
    exists vals,
      collect_items kvs acc
      = inr ((fst acc
              ++ map fst (filter (fun kv => is_true (snd kv)) kvs))%list,
             (snd acc ++ vals)%list)
      /\ map fst vals = map fst (filter (fun kv => is_true (snd kv)) kvs).
Proof.
  induction kvs as [| [key value] kvs IH]; intros Hok acc.
  - exists []. cbn [collect_items filter map]. rewrite !app_nil_r.
    destruct acc; split; reflexivity.
  - assert (Hrest : forall k v, In (k, v) kvs -> is_true v = true ->
                              exists w, strip_ids k v = inr w).
    { intros k v Hin. apply Hok. right. exact Hin. }
    cbn [collect_items filter snd]. destruct (is_true value) eqn:Htrue.
    + destruct (Hok key value (or_introl eq_refl) Htrue) as [v Hv].
      rewrite Hv.
      destruct (IH Hrest ((fst acc ++ [key])%list,
                          (snd acc ++ [(key, v)])%list))
        as [vals [Hc Hkeys]].
      exists ((key, v) :: vals). rewrite Hc. cbn [fst snd map].
      rewrite <- !app_assoc. rewrite Hkeys. split; reflexivity.
    + apply IH. exact Hrest.
Qed.

Lemma items_strip_ok (p : preprocessed_sql_analysis_result) :
  bundle_ok p = true ->
  forall key value,
    In (key, value) (items p) -> is_true value = true ->
    exists v, strip_ids key value = inr v.
Proof.
  intros Hok key value Hin Htrue. unfold bundle_ok in Hok.
  destruct (map_result_units _ Hok) as [vs [Hvs _]].
  unfold items in Hin. cbn [In] in Hin.
  destruct Hin as [H | [H | [H | [H | [H | []]]]]];
    injection H as <- <-; unfold strip_ids; cbn [String.eqb Ascii.eqb Bool.eqb negb].
  - destruct (p_filter p); [eexists; reflexivity | discriminate Htrue].
  - eexists; reflexivity.
  - simpl. rewrite Hvs. eexists; reflexivity.
  - eexists; reflexivity.
  - eexists; reflexivity.
Qed.

Lemma collect_bundles_spec
  (bundles : list preprocessed_sql_analysis_result) :
  forallb bundle_ok bundles = true ->
  forall acc,
    exists vals,
      collect_bundles bundles acc
      = inr ((fst acc ++ flat_map true_categories bundles)%list,
             (snd acc ++ vals)%list)
      /\ map fst vals = flat_map true_categories bundles.
Proof.
  induction bundles as [| p ps IH]; intros Hok acc.
  - exists []. cbn [collect_bundles flat_map map]. rewrite !app_nil_r.
    destruct acc; split; reflexivity.
  - simpl in Hok. apply andb_true_iff in Hok. destruct Hok as [Hp Hps].
    destruct (collect_items_spec (items p) (items_strip_ok p Hp) acc)
      as [vals1 [Hc1 Hk1]].
    cbn [collect_bundles flat_map]. rewrite Hc1.
    destruct (IH Hps ((fst acc ++ true_categories p)%list,
                      (snd acc ++ vals1)%list))
      as [vals2 [Hc2 Hk2]].
    exists (vals1 ++ vals2)%list. unfold true_categories in *.
    rewrite Hc2. cbn [fst snd]. rewrite <- !app_assoc, map_app, Hk1, Hk2.
    split; reflexivity.
Qed.

Lemma combine_aligned {V : Type} (vals : list (string * V)) :
  combine (map fst vals) vals = map (fun kv => (fst kv, kv)) vals.
Proof.
  induction vals as [| kv vals IH]; [reflexivity |].
  simpl. rewrite IH. reflexivity.
Qed.

(** The requests for bundles of units: one for each true category of
    each bundle, in order. *)
Lemma requests_spec (question sql sql_summary : string)
  (bundles : list preprocessed_sql_analysis_result) :
  forallb bundle_ok bundles = true ->
  exists vals,
    requests question sql bundles sql_summary
    = inr (map (fun kv =>
                  mkRequest question sql kv
                    (get_sql_explanation_prompt_given_analysis_type (fst kv))
                    sql_summary)
               vals)
    /\ map fst vals = flat_map true_categories bundles.
Proof.
  intros Hok. destruct (collect_bundles_spec bundles Hok ([], []))
    as [vals [Hc Hk]].
  exists vals. unfold requests. rewrite Hc. cbn [fst snd app].
  rewrite <- Hk, combine_aligned, map_map. split; reflexivity.
Qed.

Lemma true_categories_bounds (p : preprocessed_sql_analysis_result) :
  In "selectItems" (true_categories p)
  /\ 1 <= List.length (true_categories p) <= 5.
Proof.
  unfold true_categories, items. cbn [filter snd].
  change (is_true (VSelect (p_selectItems p))) with true.
  destruct (is_true (VFilter (p_filter p))),
           (is_true (VTexts (p_groupByKeys p))),
           (is_true (VItems (p_relation p))),
           (is_true (VTexts (p_sortings p)));
    cbn [map fst List.length In]; split; auto 6; lia.
Qed.

(** X13: for bundles as the preprocessor builds them, [prompts] makes
    one request for each category of each bundle whose value is true
    under [if value:], bundle after bundle and in the order of the
    keys; every request carries the question, the SQL and the summary
    as given, and the hint of its own category. *)
Theorem requests_follow_bundles (q query summary : string)
  (bundles : list preprocessed_sql_analysis_result) :
  forallb bundle_ok bundles = true ->
  exists rs,
    requests q query bundles summary = inr rs
    /\ map category rs = flat_map true_categories bundles
    /\ Forall (fun r =>
                 question r = q
                 /\ sql r = query
                 /\ sql_summary r = summary
                 /\ explanation_hint r
                    = get_sql_explanation_prompt_given_analysis_type
                        (category r))
              rs.
Proof.
  intros Hok. destruct (requests_spec q query summary bundles Hok)
    as [vals [Hr Hk]].
  eexists. split; [exact Hr | split].
  - rewrite map_map. exact Hk.
  - apply Forall_forall. intros r Hin. apply in_map_iff in Hin.
    destruct Hin as [kv [<- _]]. repeat split.
Qed.

(** The sample bundle has group-by keys and relations: three requests,
    the third for the select items. *)
Lemma requests_follow_bundles_witness :
  exists rs,
    requests "q" "select 1" [Sample.bundle] "s" = inr rs
    /\ map category rs = ["groupByKeys"; "relation"; "selectItems"].
Proof.
  destruct (requests_follow_bundles "q" "select 1" "s" [Sample.bundle] eq_refl)
    as [rs [Hr [Hc _]]].
  exists rs. split; [exact Hr | exact Hc].
Defined.

Lemma flat_map_length_bounds {A B : Type} (f : A -> list B) (l : list A)
  (lo hi : nat) :
  (forall a, lo <= List.length (f a) <= hi) ->
  lo * List.length l <= List.length (flat_map f l) <= hi * List.length l.
Proof.
  intros H. induction l as [| a l IH]; [simpl; lia |].
  cbn [flat_map List.length]. rewrite length_app. specialize (H a). lia.
Qed.

(** X14: every bundle gets a request for [selectItems], because the
    select result always has its two keys; so for bundles as the
    preprocessor builds them the number of requests is at least the
    number of bundles and at most five times that number. *)
Theorem requests_count_bounds (q query summary : string)
  (bundles : list preprocessed_sql_analysis_result) :
  forallb bundle_ok bundles = true ->
  exists rs,
    requests q query bundles summary = inr rs
    /\ List.length bundles <= List.length rs <= 5 * List.length bundles
    /\ Forall (fun p => In "selectItems" (true_categories p)) bundles.
Proof.
  intros Hok. destruct (requests_spec q query summary bundles Hok)
    as [vals [Hr Hk]].
  eexists. split; [exact Hr | split].
  - rewrite length_map, <- (length_map fst vals), Hk.
    pose proof (flat_map_length_bounds true_categories bundles 1 5
                  (fun p => proj2 (true_categories_bounds p))) as H.
    lia.
  - apply Forall_forall. intros p _. apply true_categories_bounds.
Qed.

(** Two bundles with nothing in them still give two requests. *)
Lemma requests_count_bounds_witness :
  exists rs,
    requests "q" "select 1"
      [mkBundle None [] [] (mkSelectResult [] []) [];
       mkBundle None [] [] (mkSelectResult [] []) []] "s" = inr rs
    /\ 2 <= List.length rs <= 10.
Proof.
  destruct (requests_count_bounds "q" "select 1" "s"
              [mkBundle None [] [] (mkSelectResult [] []) [];
               mkBundle None [] [] (mkSelectResult [] []) []] eq_refl)
    as [rs [Hr [Hlen _]]].
  exists rs. split; [exact Hr | exact Hlen].
Defined.

(** ** Result reconciler: what one reply can add *)

Lemma emits_ret (P : list ExplanationRecord -> Prop) {A : Type} (a : A) :
  P [] -> emits P (ret a).
Proof.
  intros H results. exists []. cbn [ret fst]. rewrite app_nil_r.
  split; [reflexivity | exact H].
Qed.

Lemma emits_raise (P : list ExplanationRecord -> Prop) {A : Type} (e : exn) :
  P [] -> emits P (@raise A e).
Proof.
  intros H results. exists []. cbn [raise fst]. rewrite app_nil_r.
  split; [reflexivity | exact H].
Qed.

Lemma emits_append (P : list ExplanationRecord -> Prop)
  (r : ExplanationRecord) :
  P [r] -> emits P (append r).
Proof. intros H results. exists [r]. split; [reflexivity | exact H]. Qed.

Lemma emits_extend (P : list ExplanationRecord -> Prop)
  (rs : list ExplanationRecord) :
  P rs -> emits P (extend rs).
Proof. intros H results. exists rs. split; [reflexivity | exact H]. Qed.

Lemma emits_bind_silent (P : list ExplanationRecord -> Prop) {A B : Type}
  (m : M A) (k : A -> M B) :
  silent m -> P [] -> (forall a, emits P (k a)) -> emits P (bind m k).
Proof.
  intros [[e He] | [a Ha]] Hnil Hk results; unfold bind.
  - rewrite He. exists []. cbn [fst]. rewrite app_nil_r.
    split; [reflexivity | exact Hnil].
  - rewrite Ha. apply Hk.
Qed.

Lemma emits_for_each_append (P : list ExplanationRecord -> Prop) {A : Type}
  (f : A -> ExplanationRecord) (l : list A) :
  P (map f l) -> emits P (for_each l (fun a => append (f a))).
Proof.
  intros H results. exists (map f l). rewrite for_each_append.
  split; [reflexivity | exact H].
Qed.

(** The relation loop adds relation records, at most one per pair, also
    when it stops at an element that is no unit. *)
Lemma relation_loop_adds (pairs : list (list_item * json)) :
  forall results,
    exists rs,
      fst (for_each pairs append_relation results) = (results ++ rs)%list
      /\ List.length rs <= List.length pairs
      /\ Forall (fun r => rec_type r = "relation") rs.
Proof.
  induction pairs as [| [item e] pairs IH]; intros results.
  - exists []. cbn [for_each ret fst]. rewrite app_nil_r.
    split; [reflexivity | split; [simpl; lia | constructor]].
  - cbn [for_each]. unfold bind, append_relation at 1. cbn [fst snd].
    destruct item as [s | u].
    + exists []. cbn [raise fst]. rewrite app_nil_r.
      split; [reflexivity | split; [simpl; lia | constructor]].
    + unfold append.
      destruct (IH (results ++ [relation_record u e])%list)
        as [rs [Hrs [Hlen Hall]]].
      exists (relation_record u e :: rs). rewrite Hrs, <- app_assoc.
      split; [reflexivity | split; [simpl; lia |]].
      constructor; [reflexivity | exact Hall].
Qed.

Lemma one_category_nil : one_category [].
Proof. exists "filter". split; [simpl; auto | constructor]. Qed.

Lemma one_category_map {A : Type} (type : string)
  (f : A -> ExplanationRecord) (l : list A) :
  In type category_names ->
  (forall a, rec_type (f a) = type) ->
  one_category (map f l).
Proof.
  intros Hin Hf. exists type. split; [exact Hin |].
  apply Forall_forall. intros r Hr. apply in_map_iff in Hr.
  destruct Hr as [a [<- _]]. apply Hf.
Qed.

Lemma reply_bound_nil (p : preprocessed_sql_analysis_result) :
  reply_bound p [].
Proof. split; [simpl; lia | apply one_category_nil]. Qed.

Lemma combine_length_le {A B : Type} (l : list A) (l' : list B) :
  List.length (combine l l') <= List.length l.
Proof. rewrite length_combine. lia. Qed.

Lemma emits_match_reply (p : preprocessed_sql_analysis_result) (r : json) :
  emits (reply_bound p) (match_reply p r).
Proof.
  pose proof (reply_bound_nil p) as Hnil.
  unfold match_reply. cbv zeta.
  apply emits_bind_silent; [apply silent_and_then | exact Hnil | intros c1].
  destruct c1.
  { apply emits_bind_silent; [apply silent_lift | exact Hnil | intros e].
    destruct (p_filter p) as [u |] eqn:Hf; [| apply emits_raise; exact Hnil].
    apply emits_append. split.
    - unfold units_total. rewrite Hf. simpl. lia.
    - apply (one_category_map "filter"
               (fun _ : unit => expression_record "filter" u e) [tt]);
        [simpl; auto | reflexivity]. }
  apply emits_bind_silent; [apply silent_and_then | exact Hnil | intros c2].
  destruct c2.
  { apply emits_bind_silent; [apply silent_lift | exact Hnil | intros e].
    apply emits_bind_silent; [apply silent_lift | exact Hnil | intros es].
    apply emits_for_each_append. split.
    - rewrite length_map. pose proof (combine_length_le (p_groupByKeys p) es).
      unfold units_total. lia.
    - apply (one_category_map "groupByKeys"); [simpl; auto | reflexivity]. }
  apply emits_bind_silent; [apply silent_and_then | exact Hnil | intros c3].
  destruct c3.
  { apply emits_bind_silent; [apply silent_lift | exact Hnil | intros e].
    apply emits_bind_silent; [apply silent_lift | exact Hnil | intros es].
    intros results.
    destruct (relation_loop_adds (combine (p_relation p) es) results)
      as [rs [Hrs [Hlen Hall]]].
    exists rs. split; [exact Hrs | split].
    - pose proof (combine_length_le (p_relation p) es).
      unfold units_total. lia.
    - exists "relation". split; [simpl; auto | exact Hall]. }
  apply emits_bind_silent; [apply silent_and_then | exact Hnil | intros c4].
  destruct c4.
  { apply emits_bind_silent; [apply silent_lift | exact Hnil | intros s1].
    apply emits_bind_silent; [apply silent_lift | exact Hnil | intros e1].
    apply emits_bind_silent; [apply silent_lift | exact Hnil | intros es1].
    apply emits_bind_silent; [apply silent_lift | exact Hnil | intros s2].
    apply emits_bind_silent; [apply silent_lift | exact Hnil | intros e2].
    apply emits_bind_silent; [apply silent_lift | exact Hnil | intros es2].
    apply emits_extend. split.
    - rewrite length_app, !length_map.
      pose proof (combine_length_le
                    (withFunctionCallOrMathematicalOperation (p_selectItems p))
                    es1).
      pose proof (combine_length_le
                    (withoutFunctionCallOrMathematicalOperation
                       (p_selectItems p)) es2).
      unfold units_total. lia.
    - exists "selectItems". split; [simpl; auto 6 |].
      apply Forall_app. split; apply Forall_forall; intros x Hx;
        apply in_map_iff in Hx; destruct Hx as [a [<- _]]; reflexivity. }
  apply emits_bind_silent; [apply silent_and_then | exact Hnil | intros c5].
  destruct c5; [| apply emits_ret; exact Hnil].
  apply emits_bind_silent; [apply silent_lift | exact Hnil | intros e].
  apply emits_bind_silent; [apply silent_lift | exact Hnil | intros es].
  apply emits_for_each_append. split.
  - rewrite length_map. pose proof (combine_length_le (p_sortings p) es).
    unfold units_total. lia.
  - apply (one_category_map "sortings"); [simpl; auto 7 | reflexivity].
Qed.

(** X15: whatever a reply holds and whatever the decoder makes of it,
    one turn of the loop keeps the records that are already in
    [results] and adds after them records of one single category, at
    most as many as the bundle has units; this holds also when the turn
    ends in an exception. *)
Theorem reply_adds_one_category (loads : string -> option json)
  (p : preprocessed_sql_analysis_result) (generate : json)
  (results : list ExplanationRecord) :
  exists rs,
    fst (reconcile_reply loads p generate results) = (results ++ rs)%list
    /\ List.length rs <= units_total p
    /\ exists type,
         In type category_names /\ Forall (fun r => rec_type r = type) rs.
Proof.
  assert (H : emits (reply_bound p) (reconcile_reply loads p generate)).
  { unfold reconcile_reply. apply emits_bind_silent.
    - apply silent_lift.
    - apply reply_bound_nil.
    - intros r. apply emits_match_reply. }
  destruct (H results) as [rs [Hrs [Hlen Hcat]]].
  exists rs. split; [exact Hrs | split; [exact Hlen | exact Hcat]].
Qed.

(** ** Result reconciler: the branches of the chain *)

Lemma reconcile_parsed (loads : string -> option json)
  (p : preprocessed_sql_analysis_result) (generate r : json)
  (results : list ExplanationRecord) :
  parse_reply loads generate = inr r ->
  reconcile_reply loads p generate results = match_reply p r results.
Proof.
  intros H. unfold reconcile_reply, bind at 1. rewrite H. reflexivity.
Qed.

(** X16: the filter comes first: when the bundle has a filter unit and
    the decoded results hold a true value under [filter], the reply
    gives exactly one record, of type [filter], with the unit's id and
    text and with [_extract_to_str] of that value as explanation,
    whatever else the results hold. *)
Theorem reconcile_filter_first (loads : string -> option json)
  (p : preprocessed_sql_analysis_result) (generate : json)
  (kvs : list (string * json)) (u : ExplanationUnit string) (v : json) :
  parse_reply loads generate = inr (JDict kvs) ->
  p_filter p = Some u ->
  Py.lookup "filter" kvs = Some v ->
  Json.truthy v = true ->
  forall results,
    reconcile_reply loads p generate results
    = ((results
        ++ [mkRecord "filter"
              (ExpressionPayload (id u) (values u) (_extract_to_str v))])%list,
       inr tt).
Proof.
  intros Hparse Hf Hget Htrue results.
  rewrite (reconcile_parsed loads p generate _ results Hparse).
  unfold match_reply. cbv zeta.
  rewrite bind_and_then_get by reflexivity.
  unfold reply_has. rewrite Hget, Htrue, Hf.
  cbn [is_true py_len Nat.eqb negb andb].
  rewrite (bind_lift_getitem kvs _ _ _ _ Hget). reflexivity.
Qed.

(** The results hold a filter explanation and a sortings explanation:
    the filter record is made and the rest is ignored. *)
Lemma reconcile_filter_first_witness :
  let loads := fun _ : string =>
    Some (JDict [("results",
                  JDict [("sortings", JList [JStr "newest first"]);
                         ("filter",
                          JList [JStr "checks that age exceeds 18"])])]) in
  let p := mkBundle (Some (mkUnit "age > 18" "f1")) [] []
                    (mkSelectResult [] []) [mkUnit "day DESC" "s1"] in
  reconcile_reply loads p (Sample.reply "text") []
  = ([mkRecord "filter"
        (ExpressionPayload "f1" "age > 18"
           (JStr "checks that age exceeds 18"))],
     inr tt).
Proof.
  intros loads p.
  exact (reconcile_filter_first loads p (Sample.reply "text")
           [("sortings", JList [JStr "newest first"]);
            ("filter", JList [JStr "checks that age exceeds 18"])]
           (mkUnit "age > 18" "f1")
           (JList [JStr "checks that age exceeds 18"])
           eq_refl eq_refl eq_refl eq_refl []).
Defined.

Lemma map_combine_map_r {U B C A : Type} (h : U -> C -> A) (j : B -> C)
  (l : list U) (es : list B) :
  map (fun pair => h (fst pair) (snd pair)) (combine l (map j es))
  = map (fun pair => h (fst pair) (j (snd pair))) (combine l es).
Proof.
  revert es. induction l as [| u l IH]; intros [| e es]; simpl;
    try reflexivity.
  rewrite IH. reflexivity.
Qed.

(** X17: when no earlier category matches and the decoded results hold
    a non-empty dictionary under [selectItems], the reply gives the
    records of two positional pairings, first the units with a function
    call or mathematical operation (flag true), then the others (flag
    false), each cut at the shorter side; a missing sub-list counts as
    empty. *)
Theorem reconcile_select_items (loads : string -> option json)
  (p : preprocessed_sql_analysis_result) (generate : json)
  (kvs sel : list (string * json)) (es1 es2 : list string) :
  parse_reply loads generate = inr (JDict kvs) ->
  bundle_has p "filter" && reply_has kvs "filter" = false ->
  bundle_has p "groupByKeys" && reply_has kvs "groupByKeys" = false ->
  bundle_has p "relation" && reply_has kvs "relation" = false ->
  Py.lookup "selectItems" kvs = Some (JDict sel) ->
  sel <> [] ->
  Py.get_default (Py.lookup "withFunctionCallOrMathematicalOperation" sel)
                 (JList [])
  = JList (map JStr es1) ->
  Py.get_default (Py.lookup "withoutFunctionCallOrMathematicalOperation" sel)
                 (JList [])
  = JList (map JStr es2) ->
  forall results,
    reconcile_reply loads p generate results
    = ((results
        ++ (map (fun pair => select_record true (fst pair) (JStr (snd pair)))
              (combine
                 (withFunctionCallOrMathematicalOperation (p_selectItems p))
                 es1)
            ++ map (fun pair =>
                      select_record false (fst pair) (JStr (snd pair)))
                 (combine
                    (withoutFunctionCallOrMathematicalOperation
                       (p_selectItems p))
                    es2)))%list,
       inr tt).
Proof.
  intros Hparse H1 H2 H3 Hget Hsel Hw Hwo results.
  rewrite (reconcile_parsed loads p generate _ results Hparse).
  unfold match_reply. cbv zeta.
  change (is_true (VFilter (p_filter p))) with (bundle_has p "filter").
  change (is_true (VTexts (p_groupByKeys p)))
    with (bundle_has p "groupByKeys").
  change (is_true (VItems (p_relation p))) with (bundle_has p "relation").
  change (is_true (VSelect (p_selectItems p))) with true.
  rewrite bind_and_then_get, H1 by reflexivity.
  rewrite bind_and_then_get, H2 by reflexivity.
  rewrite bind_and_then_get, H3 by reflexivity.
  rewrite bind_and_then_get by reflexivity.
  assert (Hhas : reply_has kvs "selectItems" = true).
  { unfold reply_has. rewrite Hget. destruct sel; [contradiction | reflexivity]. }
  rewrite Hhas. cbn [andb].
  unfold bind, lift, Json.get. rewrite Hget. cbn [Py.get_default ret].
  rewrite Hw, Hwo. cbn [Json.iterate ret extend].
  rewrite !(map_combine_map_r (fun u e => select_record _ u e) JStr).
  reflexivity.
Qed.

(** One unit on each side; the reply explains the first side twice and
    has no list for the second: one record. *)
Lemma reconcile_select_items_witness :
  let loads := fun _ : string =>
    Some (JDict [("results",
                  JDict [("selectItems",
                          JDict [("withFunctionCallOrMathematicalOperation",
                                  JList [JStr "adds up"; JStr "spare"])])])])
  in
  let p := mkBundle None [] []
             (mkSelectResult [mkUnit (mkSelectValues "t" "sum(x)") "s1"]
                             [mkUnit (mkSelectValues "n" "name") "s2"]) [] in
  reconcile_reply loads p (Sample.reply "text") []
  = ([mkRecord "selectItems"
        (SelectPayload "s1" (mkSelectValues "t" "sum(x)") true
           (JStr "adds up"))],
     inr tt).
Proof.
  intros loads p.
  refine (reconcile_select_items loads p (Sample.reply "text")
            [("selectItems",
              JDict [("withFunctionCallOrMathematicalOperation",
                      JList [JStr "adds up"; JStr "spare"])])]
            [("withFunctionCallOrMathematicalOperation",
              JList [JStr "adds up"; JStr "spare"])]
            ["adds up"; "spare"] []
            eq_refl eq_refl eq_refl eq_refl eq_refl _ eq_refl eq_refl []).
  discriminate.
Defined.

(** X18: a reply whose decoded results hold nothing true for any
    category the bundle holds adds no record and raises nothing: it is
    passed over. *)
Theorem reconcile_unmatched_reply (loads : string -> option json)
  (p : preprocessed_sql_analysis_result) (generate : json)
  (kvs : list (string * json)) :
  parse_reply loads generate = inr (JDict kvs) ->
  forallb (fun key => negb (bundle_has p key && reply_has kvs key))
          category_names = true ->
  forall results,
    reconcile_reply loads p generate results = (results, inr tt).
Proof.
  intros Hparse Hall results.
  rewrite (reconcile_parsed loads p generate _ results Hparse).
  assert (H : forall key, In key category_names ->
                          bundle_has p key && reply_has kvs key = false).
  { intros key Hin. rewrite forallb_forall in Hall.
    apply negb_true_iff. apply Hall. exact Hin. }
  unfold match_reply. cbv zeta.
  change (is_true (VFilter (p_filter p))) with (bundle_has p "filter").
  change (is_true (VTexts (p_groupByKeys p)))
    with (bundle_has p "groupByKeys").
  change (is_true (VItems (p_relation p))) with (bundle_has p "relation").
  change (is_true (VSelect (p_selectItems p)))
    with (bundle_has p "selectItems").
  change (is_true (VTexts (p_sortings p))) with (bundle_has p "sortings").
  rewrite bind_and_then_get, (H "filter") by (reflexivity || simpl; auto).
  rewrite bind_and_then_get, (H "groupByKeys")
    by (reflexivity || simpl; auto).
  rewrite bind_and_then_get, (H "relation") by (reflexivity || simpl; auto).
  rewrite bind_and_then_get, (H "selectItems")
    by (reflexivity || simpl; auto 6).
  rewrite bind_and_then_get, (H "sortings") by (reflexivity || simpl; auto 7).
  reflexivity.
Qed.

(** The sample bundle has no sortings; a reply about sortings is passed
    over. *)
Lemma reconcile_unmatched_reply_witness :
  let loads := fun _ : string =>
    Some (JDict [("results", JDict [("sortings", JList [JStr "newest"])])]) in
  reconcile_reply loads Sample.bundle (Sample.reply "text") [] = ([], inr tt).
Proof.
  intros loads.
  exact (reconcile_unmatched_reply loads Sample.bundle (Sample.reply "text")
           [("sortings", JList [JStr "newest"])] eq_refl eq_refl []).
Defined.

(** ** Result reconciler: replies that cannot be read, and the loop *)

Lemma match_reply_not_dict (p : preprocessed_sql_analysis_result) (r : json) :
  is_dict r = false ->
  exists e, forall results, match_reply p r results = (results, inl e).
Proof.
  intros Hr. unfold match_reply. cbv zeta.
  change (is_true (VSelect (p_selectItems p))) with true.
  assert (Hget : forall key d, Json.get r key d = inl AttributeError).
  { intros key d. destruct r; try reflexivity. discriminate Hr. }
  rewrite !Hget. unfold bind, and_then, raise, ret.
  destruct (is_true (VFilter (p_filter p)));
    [eexists; reflexivity |].
  destruct (is_true (VTexts (p_groupByKeys p)));
    [eexists; reflexivity |].
  destruct (is_true (VItems (p_relation p)));
    [eexists; reflexivity |].
  eexists; reflexivity.
Qed.

(** X19: for every bundle, a reply that cannot be read (no [replies]
    key, no first reply, text the decoder rejects, no [results] key, or
    [results] that is no dictionary) raises before anything is appended;
    as the first reply it makes [run] return the empty list, whatever
    replies follow. *)
Theorem unusable_reply_raises_first (loads : string -> option json)
  (p : preprocessed_sql_analysis_result)
  (ps : list preprocessed_sql_analysis_result)
  (generate : json) (after : list json) :
  reply_unusable loads generate = true ->
  (exists e, forall results,
     reconcile_reply loads p generate results = (results, inl e))
  /\ SQLExplanationGenerationPostProcessor_run loads (generate :: after)
       (p :: ps) = [].
Proof.
  intros H. unfold reply_unusable in H.
  assert (He : exists e, forall results,
               reconcile_reply loads p generate results = (results, inl e)).
  { unfold reconcile_reply, bind at 1.
    destruct (parse_reply loads generate) as [e | r].
    - exists e. reflexivity.
    - apply negb_true_iff in H.
      destruct (match_reply_not_dict p r H) as [e He]. exists e. exact He. }
  split; [exact He |].
  destruct He as [e He].
  unfold SQLExplanationGenerationPostProcessor_run, try_body.
  cbn [for_each]. unfold bind. rewrite He. reflexivity.
Qed.

(** The decoder rejects the first reply: nothing is returned, although
    the second reply is well formed. *)
Lemma unusable_reply_raises_first_witness :
  SQLExplanationGenerationPostProcessor_run Sample.loads
    [Sample.reply "not json"; Sample.reply "G"] [Sample.bundle]
  = [].
Proof.
  exact (proj2 (unusable_reply_raises_first Sample.loads Sample.bundle []
                  (Sample.reply "not json") [Sample.reply "G"] eq_refl)).
Defined.

Lemma run_is_loop (loads : string -> option json) (generates : list json)
  (p : preprocessed_sql_analysis_result)
  (ps : list preprocessed_sql_analysis_result) :
  SQLExplanationGenerationPostProcessor_run loads generates (p :: ps)
  = fst (for_each generates (reconcile_reply loads p) []).
Proof.
  unfold SQLExplanationGenerationPostProcessor_run, try_body.
  destruct (for_each generates (reconcile_reply loads p) []) as [rs [e | a]];
    reflexivity.
Qed.

(** With a bundle of units, the loop adds to any list what it adds to
    the empty one. *)
Lemma loop_frame (loads : string -> option json)
  (p : preprocessed_sql_analysis_result) (generates : list json) :
  bundle_ok p = true ->
  forall results,
    fst (for_each generates (reconcile_reply loads p) results)
    = (results ++ fst (for_each generates (reconcile_reply loads p) []))%list.
Proof.
  intros Hok. induction generates as [| g gs IH]; intros results.
  - cbn [for_each ret fst]. rewrite app_nil_r. reflexivity.
  - cbn [for_each]. unfold bind.
    destruct (atomic_reconcile_reply loads p g Hok) as [[e He] | [rs [a Ha]]].
    + rewrite !He. cbn [fst]. rewrite app_nil_r. reflexivity.
    + rewrite !Ha. rewrite (IH (results ++ rs)%list), (IH ([] ++ rs)%list).
      cbn [app]. rewrite app_assoc. reflexivity.
Qed.

(** X20: with a bundle of units, when no reply of a first batch raises,
    [run] on the first batch followed by a second returns what it
    returns for the first followed by what it returns for the second:
    each reply is reconciled on its own, in the order of the replies. *)
Theorem run_over_batches (loads : string -> option json)
  (first second : list json) (p : preprocessed_sql_analysis_result)
  (ps : list preprocessed_sql_analysis_result) :
  bundle_ok p = true ->
  forallb (fun g => negb (raises loads p g)) first = true ->
  SQLExplanationGenerationPostProcessor_run loads (first ++ second) (p :: ps)
  = (SQLExplanationGenerationPostProcessor_run loads first (p :: ps)
     ++ SQLExplanationGenerationPostProcessor_run loads second (p :: ps))%list.
Proof.
  intros Hok Hfirst. rewrite !run_is_loop.
  assert (Happ : forall results,
            for_each (first ++ second) (reconcile_reply loads p) results
            = for_each second (reconcile_reply loads p)
                (results ++ concat (map (records_of loads p) first))%list).
  { induction first as [| g gs IH]; intros results.
    - cbn [app map concat]. rewrite app_nil_r. reflexivity.
    - simpl in Hfirst. apply andb_true_iff in Hfirst.
      destruct Hfirst as [Hg Hgs]. apply negb_true_iff in Hg.
      cbn [app for_each map concat]. unfold bind.
      rewrite (returning_reply_appends_records loads p Hok g Hg).
      rewrite (IH Hgs). rewrite <- app_assoc. reflexivity. }
  rewrite Happ, (loop_over_returning_replies loads p Hok first Hfirst).
  cbn [fst app]. apply loop_frame. exact Hok.
Qed.

(** A reply about group-by keys, then one about relations. *)
Lemma run_over_batches_witness :
  SQLExplanationGenerationPostProcessor_run Sample.loads
    ([Sample.reply "G"] ++ [Sample.reply "R"]) [Sample.bundle]
  = [mkRecord "groupByKeys" (ExpressionPayload "g1" "city" (JStr "by city"));
     mkRecord "relation"
       (RelationPayload "t1" (TableValues "TABLE" "orders")
          (JStr "joins orders"))].
Proof.
  exact (run_over_batches Sample.loads [Sample.reply "G"] [Sample.reply "R"]
           Sample.bundle [] eq_refl eq_refl).
Defined.

(** ** From analysis results to records *)

Lemma preprocess_one_fields (cte_names : list list_item)
  (sds : list (list data_source)) (a : sql_analysis_result) :
  let bundle := fst (preprocess_one cte_names sds a) in
  p_groupByKeys bundle
  = match ar_groupByKeys a with
    | Some g => _compose_sql_expression_of_groupby_type g
    | None => []
    end
  /\ p_relation bundle
     = match ar_relation a with
       | Some r => fst (_compose_sql_expression_of_relation_type r cte_names)
       | None => []
       end
  /\ p_sortings bundle
     = match ar_sortings a with
       | Some s => _compose_sql_expression_of_sortings_type s
       | None => []
       end.
Proof.
  unfold preprocess_one. destruct (ar_relation a) as [r |].
  - destruct (_compose_sql_expression_of_relation_type r cte_names).
    repeat split.
  - repeat split.
Qed.

Lemma preprocess_one_ok (cte_names : list list_item)
  (sds : list (list data_source)) (a : sql_analysis_result) :
  bundle_ok (fst (preprocess_one cte_names sds a)) = true.
Proof.
  unfold bundle_ok.
  destruct (preprocess_one_fields cte_names sds a) as [_ [Hr _]].
  rewrite Hr. destruct (ar_relation a) as [r |]; [| reflexivity].
  apply compose_relation_units_only.
Qed.

Lemma preprocessor_head (cte_names : list list_item)
  (sds : list (list data_source)) (a : sql_analysis_result)
  (rest : list sql_analysis_result) :
  not_subquery_or_cte a = true ->
  exists bundles,
    fst (SQLAnalysisPreprocessor_run cte_names sds (a :: rest))
    = fst (preprocess_one cte_names sds a) :: bundles.
Proof.
  intros H. unfold not_subquery_or_cte in H.
  cbn [SQLAnalysisPreprocessor_run]. rewrite H.
  destruct (preprocess_one cte_names sds a) as [bundle cte_names'].
  destruct (SQLAnalysisPreprocessor_run cte_names' sds rest)
    as [bundles cte_names''].
  exists bundles. reflexivity.
Qed.

Lemma single_key_unmatched (c : zip_category)
  (p : preprocessed_sql_analysis_result) (v : json) :
  unmatched_elsewhere c p [(category_key c, v)] = true.
Proof.
  destruct c; unfold unmatched_elsewhere, other_categories, reply_has;
    cbn [category_key filter forallb Py.lookup String.eqb Ascii.eqb
         Bool.eqb negb];
    rewrite ?andb_false_r; reflexivity.
Qed.

(** The first analysis result that is no subquery, and one reply that
    explains category [c] only. *)
Lemma pipeline_pairs (loads : string -> option json) (c : zip_category)
  (cte_names : list list_item) (sds : list (list data_source))
  (a : sql_analysis_result) (rest : list sql_analysis_result)
  (generate : json) (es : list string) :
  not_subquery_or_cte a = true ->
  parse_reply loads generate
  = inr (JDict [(category_key c, JList (map JStr es))]) ->
  SQLExplanationGenerationPostProcessor_run loads [generate]
    (fst (SQLAnalysisPreprocessor_run cte_names sds (a :: rest)))
  = paired_records c (fst (preprocess_one cte_names sds a)) es.
Proof.
  intros Ha Hparse.
  destruct (preprocessor_head cte_names sds a rest Ha) as [bundles ->].
  rewrite run_is_loop. cbn [for_each]. unfold bind.
  rewrite (reconcile_parsed loads _ generate _ [] Hparse).
  rewrite (match_reply_pairs c _ _ es (preprocess_one_ok cte_names sds a)).
  - reflexivity.
  - cbn [Py.lookup]. rewrite String.eqb_refl. reflexivity.
  - apply single_key_unmatched.
Qed.

Lemma map_combine_map_l {K U B A : Type} (g : K -> U) (h : U -> B -> A)
  (l : list K) (es : list B) :
  map (fun pair => fst pair (snd pair)) (combine (map (fun k => h (g k)) l) es)
  = map (fun pair => h (g (fst pair)) (snd pair)) (combine l es).
Proof.
  revert es. induction l as [| k l IH]; intros [| e es]; simpl;
    try reflexivity.
  rewrite IH. reflexivity.
Qed.

Lemma groupby_as_map (groupby_keys : list (list groupby_key)) :
  _compose_sql_expression_of_groupby_type groupby_keys
  = map (fun k => mkUnit (gk_expression k)
                         (Py.get_default (gk_id k) EmptyString))
        (concat groupby_keys).
Proof.
  unfold _compose_sql_expression_of_groupby_type.
  induction groupby_keys as [| l ls IH]; [reflexivity |].
  cbn [flat_map concat]. rewrite map_app, IH. reflexivity.
Qed.

(** X21: from analysis to records, group-by keys: for a first analysis
    result that is no subquery and a reply whose decoded results hold
    only [groupByKeys] explanation strings, [run] on the preprocessor's
    bundles returns key [i] (keys read list after list) with explanation
    [i]: its id, or the empty text, its expression, the explanation;
    the surplus on either side is dropped. *)
Theorem pipeline_groupby (loads : string -> option json)
  (cte_names : list list_item) (sds : list (list data_source))
  (a : sql_analysis_result) (rest : list sql_analysis_result)
  (generate : json) (keys : list (list groupby_key)) (es : list string) :
  not_subquery_or_cte a = true ->
  ar_groupByKeys a = Some keys ->
  parse_reply loads generate
  = inr (JDict [("groupByKeys", JList (map JStr es))]) ->
  SQLExplanationGenerationPostProcessor_run loads [generate]
    (fst (SQLAnalysisPreprocessor_run cte_names sds (a :: rest)))
  = map (fun pair =>
           mkRecord "groupByKeys"
             (ExpressionPayload
                (Py.get_default (gk_id (fst pair)) EmptyString)
                (gk_expression (fst pair))
                (JStr (snd pair))))
        (combine (concat keys) es).
Proof.
  intros Ha Hkeys Hparse.
  rewrite (pipeline_pairs loads GroupByKeys cte_names sds a rest generate es
             Ha Hparse).
  unfold paired_records. cbn [unit_records].
  destruct (preprocess_one_fields cte_names sds a) as [Hg _].
  rewrite Hg, Hkeys, groupby_as_map, map_map.
  rewrite <- (map_combine_apply JStr).
  rewrite (map_combine_map_l
             (fun k => mkUnit (gk_expression k)
                              (Py.get_default (gk_id k) EmptyString))
             (expression_record "groupByKeys")).
  rewrite (map_combine_map_r
             (fun k e =>
                expression_record "groupByKeys"
                  (mkUnit (gk_expression k)
                          (Py.get_default (gk_id k) EmptyString)) e) JStr).
  reflexivity.
Qed.

(** Two lists of keys, three keys, two explanations: two records. *)
Lemma pipeline_groupby_witness :
  let loads := fun _ : string =>
    Some (JDict [("results",
                  JDict [("groupByKeys",
                          JList [JStr "per city"; JStr "per year"])])]) in
  let a := mkAnalysis None None
             (Some [[mkGroupbyKey "city" (Some "g1")];
                    [mkGroupbyKey "year" None; mkGroupbyKey "month" None]])
             None None None in
  SQLExplanationGenerationPostProcessor_run loads [Sample.reply "text"]
    (fst (SQLAnalysisPreprocessor_run [] [] [a]))
  = [mkRecord "groupByKeys"
       (ExpressionPayload "g1" "city" (JStr "per city"));
     mkRecord "groupByKeys"
       (ExpressionPayload EmptyString "year" (JStr "per year"))].
Proof.
  intros loads a.
  exact (pipeline_groupby loads [] [] a [] (Sample.reply "text")
           [[mkGroupbyKey "city" (Some "g1")];
            [mkGroupbyKey "year" None; mkGroupbyKey "month" None]]
           ["per city"; "per year"] eq_refl eq_refl eq_refl).
Defined.

(** X22: from analysis to records, sortings: for a first analysis
    result that is no subquery and a reply whose decoded results hold
    only [sortings] explanation strings, [run] returns sorting [i] with
    explanation [i]; the record's expression is the sorting's expression,
    one space, and its ordering. *)
Theorem pipeline_sortings (loads : string -> option json)
  (cte_names : list list_item) (sds : list (list data_source))
  (a : sql_analysis_result) (rest : list sql_analysis_result)
  (generate : json) (sorts : list sorting) (es : list string) :
  not_subquery_or_cte a = true ->
  ar_sortings a = Some sorts ->
  parse_reply loads generate
  = inr (JDict [("sortings", JList (map JStr es))]) ->
  SQLExplanationGenerationPostProcessor_run loads [generate]
    (fst (SQLAnalysisPreprocessor_run cte_names sds (a :: rest)))
  = map (fun pair =>
           mkRecord "sortings"
             (ExpressionPayload
                (Py.get_default (so_id (fst pair)) EmptyString)
                (so_expression (fst pair) ++ " " ++ ordering (fst pair))
                (JStr (snd pair))))
        (combine sorts es).
Proof.
  intros Ha Hsorts Hparse.
  rewrite (pipeline_pairs loads Sortings cte_names sds a rest generate es
             Ha Hparse).
  unfold paired_records. cbn [unit_records].
  destruct (preprocess_one_fields cte_names sds a) as [_ [_ Hs]].
  rewrite Hs, Hsorts. unfold _compose_sql_expression_of_sortings_type.
  rewrite map_map. rewrite <- (map_combine_apply JStr).
  rewrite (map_combine_map_l
             (fun s => mkUnit (so_expression s ++ " " ++ ordering s)
                              (Py.get_default (so_id s) EmptyString))
             (expression_record "sortings")).
  rewrite (map_combine_map_r
             (fun s e =>
                expression_record "sortings"
                  (mkUnit (so_expression s ++ " " ++ ordering s)
                          (Py.get_default (so_id s) EmptyString)) e) JStr).
  reflexivity.
Qed.

(** One sorting, two explanations: one record. *)
Lemma pipeline_sortings_witness :
  let loads := fun _ : string =>
    Some (JDict [("results",
                  JDict [("sortings", JList [JStr "newest first";
                                             JStr "spare"])])]) in
  let a := mkAnalysis None None None None None
             (Some [mkSorting "day" "DESC" (Some "o1")]) in
  SQLExplanationGenerationPostProcessor_run loads [Sample.reply "text"]
    (fst (SQLAnalysisPreprocessor_run [] [] [a]))
  = [mkRecord "sortings"
       (ExpressionPayload "o1" "day DESC" (JStr "newest first"))].
Proof.
  intros loads a.
  exact (pipeline_sortings loads [] [] a [] (Sample.reply "text")
           [mkSorting "day" "DESC" (Some "o1")]
           ["newest first"; "spare"] eq_refl eq_refl eq_refl).
Defined.

(** X23: from analysis to records, a relation that is one table: when
    the table's name is among the CTE names no record is made, although
    the reply explains it; otherwise the first explanation goes to the
    table and the others are dropped. *)
Theorem pipeline_table_relation (loads : string -> option json)
  (cte_names : list list_item) (sds : list (list data_source))
  (a : sql_analysis_result) (rest : list sql_analysis_result)
  (generate : json) (tableName e : string) (rid : option string)
  (es : list string) :
  not_subquery_or_cte a = true ->
  ar_relation a = Some (TABLE tableName rid) ->
  parse_reply loads generate
  = inr (JDict [("relation", JList (map JStr (e :: es)))]) ->
  SQLExplanationGenerationPostProcessor_run loads [generate]
    (fst (SQLAnalysisPreprocessor_run cte_names sds (a :: rest)))
  = if name_in tableName cte_names then []
    else [mkRecord "relation"
            (RelationPayload (Py.get_default rid EmptyString)
               (TableValues "TABLE" tableName) (JStr e))].
Proof.
  intros Ha Hrel Hparse.
  rewrite (pipeline_pairs loads Relation cte_names sds a rest generate
             (e :: es) Ha Hparse).
  unfold paired_records. cbn [unit_records].
  destruct (preprocess_one_fields cte_names sds a) as [_ [Hr _]].
  rewrite Hr, Hrel, compose_relation_lists.
  cbn [fst top_table_units own_units _is_subquery_or_has_subquery_child
       relation_type String.eqb Ascii.eqb Bool.eqb app].
  destruct (name_in tableName cte_names); reflexivity.
Qed.

(** The table [orders] is a CTE name: no record. *)
Lemma pipeline_table_relation_witness :
  let loads := fun _ : string =>
    Some (JDict [("results", JDict [("relation", JList [JStr "reads"])])]) in
  let a := mkAnalysis None None None (Some (TABLE "orders" None)) None None in
  SQLExplanationGenerationPostProcessor_run loads [Sample.reply "text"]
    (fst (SQLAnalysisPreprocessor_run [Name "orders"] [] [a]))
  = [].
Proof.
  intros loads a.
  exact (pipeline_table_relation loads [Name "orders"] [] a []
           (Sample.reply "text") "orders" "reads" None []
           eq_refl eq_refl eq_refl).
Defined.

Lemma copied_sources (exprSources : list expr_source) :
  map (fun expr_source =>
         mkExprSource (es_expression expr_source) (sourceDataset expr_source)
                      (sourceColumn expr_source))
      exprSources
  = exprSources.
Proof.
  induction exprSources as [| s l IH]; [reflexivity |].
  cbn [map]. rewrite IH. destruct s; reflexivity.
Qed.

(** X24: from analysis to records, a join of two tables: the only unit
    is the join's, with its type, criteria and expression sources, so
    the first explanation goes to the join, no record is made for
    either table, and further explanations are dropped. *)
Theorem pipeline_join_of_tables (loads : string -> option json)
  (cte_names : list list_item) (sds : list (list data_source))
  (a : sql_analysis_result) (rest : list sql_analysis_result)
  (generate : json) (kind : join_kind) (criteria : string)
  (exprSources : list expr_source) (t1 t2 e : string)
  (i1 i2 rid : option string) (es : list string) :
  not_subquery_or_cte a = true ->
  ar_relation a
  = Some (JOIN kind criteria exprSources (TABLE t1 i1) (TABLE t2 i2) rid) ->
  parse_reply loads generate
  = inr (JDict [("relation", JList (map JStr (e :: es)))]) ->
  SQLExplanationGenerationPostProcessor_run loads [generate]
    (fst (SQLAnalysisPreprocessor_run cte_names sds (a :: rest)))
  = [mkRecord "relation"
       (RelationPayload (Py.get_default rid EmptyString)
          (JoinValues (join_name kind) criteria exprSources) (JStr e))].
Proof.
  intros Ha Hrel Hparse.
  rewrite (pipeline_pairs loads Relation cte_names sds a rest generate
             (e :: es) Ha Hparse).
  unfold paired_records. cbn [unit_records].
  destruct (preprocess_one_fields cte_names sds a) as [_ [Hr _]].
  rewrite Hr, Hrel, compose_relation_lists.
  cbn [fst top_table_units app own_units other_units].
  rewrite (no_subquery_not_skipped
             (JOIN kind criteria exprSources (TABLE t1 i1) (TABLE t2 i2) rid)
             eq_refl).
  cbn [_is_subquery_or_has_subquery_child relation_type String.eqb
       Ascii.eqb Bool.eqb app flat_map join_unit combine map fst snd].
  unfold relation_record. cbn [values id].
  rewrite copied_sources. reflexivity.
Qed.

(** The join of [a] and [b] with three explanations: one record. *)
Lemma pipeline_join_of_tables_witness :
  let loads := fun _ : string =>
    Some (JDict [("results",
                  JDict [("relation",
                          JList [JStr "links a and b"; JStr "table a";
                                 JStr "table b"])])]) in
  let a := mkAnalysis None None None
             (Some (JOIN INNER_JOIN "a.id=b.id" []
                         (TABLE "a" None) (TABLE "b" None) (Some "j1")))
             None None in
  SQLExplanationGenerationPostProcessor_run loads [Sample.reply "text"]
    (fst (SQLAnalysisPreprocessor_run [] [] [a]))
  = [mkRecord "relation"
       (RelationPayload "j1" (JoinValues "INNER_JOIN" "a.id=b.id" [])
          (JStr "links a and b"))].
Proof.
  intros loads a.
  exact (pipeline_join_of_tables loads [] [] a [] (Sample.reply "text")
           INNER_JOIN "a.id=b.id" [] "a" "b" "links a and b"
           None None (Some "j1") ["table a"; "table b"]
           eq_refl eq_refl eq_refl).
Defined.

(** ** Semantic models from table descriptions *)

Lemma build_models_from (database : string) (info : Preparation.tables_info)
  (names : list string) :
  forall k,
    k + List.length names
    <= List.length (Preparation.column_names_original info) ->
    exists models,
      map_result (Preparation.build_model database info)
                 (combine (seq k (List.length names)) names)
      = inr models
      /\ map Preparation.model_name models = names
      /\ map Preparation.primaryKey models
         = map snd (firstn (List.length names)
                           (skipn k (Preparation.column_names_original info)))
      /\ map Preparation.columns models
         = map (fun i => Preparation._build_mdl_columns info (Z.of_nat i))
               (seq k (List.length names)).
Proof.
  induction names as [| name names IH]; intros k Hlen.
  - exists []. repeat split.
  - cbn [List.length] in Hlen.
    destruct (IH (S k)) as [models [Hm [Hn [Hp Hc]]]]; [lia |].
    destruct (nth_error (Preparation.column_names_original info) k)
      as [column |] eqn:Hk;
      [| apply nth_error_None in Hk; lia].
    eexists. cbn [List.length seq combine map_result].
    unfold Preparation.build_model at 1. cbn [fst snd]. rewrite Hk, Hm.
    split; [reflexivity |].
    cbn [map Preparation.model_name Preparation.primaryKey
         Preparation.columns].
    rewrite Hn, Hp, Hc. repeat split.
    assert (Hskip : skipn k (Preparation.column_names_original info)
                    = column
                      :: skipn (S k) (Preparation.column_names_original info)).
    { clear - Hk. revert k Hk.
      induction (Preparation.column_names_original info) as [| c l IHl];
        intros k Hk.
      - destruct k; discriminate Hk.
      - destruct k as [| k].
        + injection Hk as ->. reflexivity.
        + cbn [skipn]. apply IHl. exact Hk. }
    rewrite Hskip. reflexivity.
Qed.

(** X25: when there are at least as many column entries as tables,
    [_build_mdl_models] gives one model per table, in order and under
    the table's name; the primary key of model [i] is the column name
    of entry [i] of [column_names_original], whichever table that
    column belongs to, and its columns are those with table index
    [i]. *)
Theorem models_one_per_table (database : string)
  (info : Preparation.tables_info) :
  List.length (Preparation.table_names_original info)
  <= List.length (Preparation.column_names_original info) ->
  exists models,
    Preparation._build_mdl_models database info = inr models
    /\ map Preparation.model_name models
       = Preparation.table_names_original info
    /\ map Preparation.primaryKey models
       = map snd (firstn (List.length (Preparation.table_names_original info))
                         (Preparation.column_names_original info))
    /\ map Preparation.columns models
       = map (fun i => Preparation._build_mdl_columns info (Z.of_nat i))
             (seq 0 (List.length (Preparation.table_names_original info))).
Proof.
  intros Hlen.
  destruct (build_models_from database info
              (Preparation.table_names_original info) 0 Hlen)
    as [models H].
  exists models. exact H.
Qed.

(** Two tables; the first column entry is the star column of no table,
    and it becomes the primary key of the first model. *)
Lemma models_one_per_table_witness :
  let info :=
    Preparation.mkTablesInfo
      [((-1)%Z, "*"); (0%Z, "id"); (0%Z, "name"); (1%Z, "user_id")]
      ["text"; "number"; "text"; "number"]
      ["users"; "orders"] in
  exists models,
    Preparation._build_mdl_models "shop" info = inr models
    /\ map Preparation.model_name models = ["users"; "orders"]
    /\ map Preparation.primaryKey models = ["*"; "id"].
Proof.
  intros info.
  destruct (models_one_per_table "shop" info) as [models [Hm [Hn [Hp _]]]].
  - simpl. lia.
  - exists models. split; [exact Hm | split; [exact Hn | exact Hp]].
Defined.

Lemma build_models_fail (database : string) (info : Preparation.tables_info)
  (names : list string) :
  forall k,
    k <= List.length (Preparation.column_names_original info) ->
    List.length (Preparation.column_names_original info)
    < k + List.length names ->
    map_result (Preparation.build_model database info)
               (combine (seq k (List.length names)) names)
    = inl IndexError.
Proof.
  induction names as [| name names IH]; intros k Hk Hlen.
  - simpl in Hlen. lia.
  - cbn [List.length seq combine map_result].
    unfold Preparation.build_model at 1. cbn [fst snd].
    destruct (nth_error (Preparation.column_names_original info) k)
      as [column |] eqn:Hnth; [| reflexivity].
    assert (k < List.length (Preparation.column_names_original info)).
    { apply nth_error_Some. rewrite Hnth. discriminate. }
    rewrite IH; [reflexivity | lia | cbn [List.length] in Hlen; lia].
Qed.

(** X26: with more tables than column entries, [_build_mdl_models]
    raises [IndexError] and no model is built. *)
Theorem models_need_column_entries (database : string)
  (info : Preparation.tables_info) :
  List.length (Preparation.column_names_original info)
  < List.length (Preparation.table_names_original info) ->
  Preparation._build_mdl_models database info = inl IndexError.
Proof.
  intros Hlen. apply build_models_fail; simpl; lia.
Qed.

(** Two tables and one column entry. *)
Lemma models_need_column_entries_witness :
  Preparation._build_mdl_models "shop"
    (Preparation.mkTablesInfo [(0%Z, "id")] ["number"] ["users"; "orders"])
  = inl IndexError.
Proof.
  apply models_need_column_entries. simpl. lia.
Defined.

Lemma columns_count_from (l : list Preparation.column_info) (n : nat) :
  forall k,
    List.length
      (concat
         (map (fun i =>
                 map (fun column =>
                        Preparation.mkMdlColumn
                          (Preparation.column_name column)
                          (Preparation.column_type column) false [])
                     (Preparation._get_columns_by_table_index l (Z.of_nat i)))
              (seq k n)))
    = List.length
        (filter (fun c =>
                   (Z.of_nat k <=? Preparation.table_index c)%Z
                   && (Preparation.table_index c <? Z.of_nat (k + n))%Z)
                l).
Proof.
  induction n as [| n IH]; intros k.
  - cbn [seq map concat List.length]. symmetry.
    induction l as [| c l IHl]; [reflexivity |].
    cbn [filter].
    destruct (Z.leb_spec (Z.of_nat k) (Preparation.table_index c)),
             (Z.ltb_spec (Preparation.table_index c) (Z.of_nat (k + 0)));
      cbn [andb]; try exact IHl; lia.
  - cbn [seq map concat]. rewrite length_app, length_map, IH.
    unfold Preparation._get_columns_by_table_index.
    clear IH. induction l as [| c l IHl]; [reflexivity |].
    cbn [filter].
    destruct (Z.eqb_spec (Preparation.table_index c) (Z.of_nat k)),
             (Z.leb_spec (Z.of_nat (S k)) (Preparation.table_index c)),
             (Z.ltb_spec (Preparation.table_index c) (Z.of_nat (S k + n))),
             (Z.leb_spec (Z.of_nat k) (Preparation.table_index c)),
             (Z.ltb_spec (Preparation.table_index c) (Z.of_nat (k + S n)));
      cbn [andb List.length]; try lia.
Qed.

Lemma filter_map_commute {A B : Type} (h : A -> B) (q : B -> bool)
  (l : list A) :
  filter q (map h l) = map h (filter (fun a => q (h a)) l).
Proof.
  induction l as [| a l IH]; [reflexivity |].
  cbn [map filter]. destruct (q (h a)); cbn [map]; rewrite IH; reflexivity.
Qed.

Lemma build_mdl_columns_explicit (info : Preparation.tables_info) (index : Z) :
  Preparation._build_mdl_columns info index
  = map (fun entry =>
           Preparation.mkMdlColumn (snd (fst entry)) (snd entry) false [])
        (filter (fun entry => (fst (fst entry) =? index)%Z)
                (combine (Preparation.column_names_original info)
                         (Preparation.column_types info))).
Proof.
  unfold Preparation._build_mdl_columns,
    Preparation._get_columns_by_table_index, Preparation._merge_column_info.
  rewrite filter_map_commute, map_map. reflexivity.
Qed.

(** X27: in the models that [_build_mdl_models] returns, the columns of
    all models together are, table index after table index from 0 up to
    the number of tables, the entries of [column_names_original] paired
    by position with [column_types] whose table index is that index, in
    order, each as a column with the entry's name and type and
    [notNull] false.  So an entry whose table index names a table is
    listed once, and an entry with another table index, such as the
    star column at -1, is listed in no model: the models hold as many
    columns as there are paired entries with an index in range. *)
Theorem columns_listed_once (database : string)
  (info : Preparation.tables_info) (models : list Preparation.mdl_model) :
  Preparation._build_mdl_models database info = inr models ->
  let entries :=
    combine (Preparation.column_names_original info)
            (Preparation.column_types info) in
  let tables := List.length (Preparation.table_names_original info) in
  Preparation.all_columns models
  = flat_map
      (fun i =>
         map (fun entry =>
                Preparation.mkMdlColumn (snd (fst entry)) (snd entry) false [])
             (filter (fun entry => (fst (fst entry) =? Z.of_nat i)%Z) entries))
      (seq 0 tables)
  /\ List.length (Preparation.all_columns models)
     = List.length
         (filter (fun entry =>
                    (0 <=? fst (fst entry))%Z
                    && (fst (fst entry) <? Z.of_nat tables)%Z)
                 entries).
Proof.
  intros Hm entries tables.
  change (Preparation._build_mdl_models database info)
    with (map_result (Preparation.build_model database info)
            (combine
               (seq 0 (List.length (Preparation.table_names_original info)))
               (Preparation.table_names_original info))) in Hm.
  destruct (Nat.le_gt_cases
              (List.length (Preparation.table_names_original info))
              (List.length (Preparation.column_names_original info)))
    as [Hle | Hgt].
  - destruct (build_models_from database info
                (Preparation.table_names_original info) 0 Hle)
      as [models' [Hm' [_ [_ Hc]]]].
    assert (Heq : models = models') by congruence. subst models'.
    assert (Hall : Preparation.all_columns models
                   = concat
                       (map (fun i =>
                               Preparation._build_mdl_columns info (Z.of_nat i))
                            (seq 0 tables))).
    { unfold Preparation.all_columns. rewrite flat_map_concat_map, Hc.
      reflexivity. }
    split.
    + rewrite Hall, flat_map_concat_map. f_equal.
      apply map_ext. intros i. apply build_mdl_columns_explicit.
    + rewrite Hall. unfold Preparation._build_mdl_columns.
      rewrite (columns_count_from _ _ 0).
      unfold Preparation._merge_column_info.
      rewrite filter_map_commute, length_map. reflexivity.
  - rewrite (build_models_fail database info
               (Preparation.table_names_original info) 0) in Hm;
      [discriminate Hm | lia | simpl; lia].
Qed.

(** Four paired entries, one of them the star column: the two columns
    of [users], then the column of [orders]. *)
Lemma columns_listed_once_witness :
  let info :=
    Preparation.mkTablesInfo
      [((-1)%Z, "*"); (0%Z, "id"); (1%Z, "user_id"); (0%Z, "name")]
      ["text"; "number"; "number"; "text"]
      ["users"; "orders"] in
  exists models,
    Preparation._build_mdl_models "shop" info = inr models
    /\ Preparation.all_columns models
       = [Preparation.mkMdlColumn "id" "number" false [];
          Preparation.mkMdlColumn "name" "text" false [];
          Preparation.mkMdlColumn "user_id" "number" false []].
Proof.
  intros info. eexists. split.
  - reflexivity.
  - exact (proj1 (columns_listed_once "shop" info _ eq_refl)).
Defined.

(** ** Analysis composer: one bundle per result, each on its own *)

Lemma compose_ignores_units (r : relation) (cte_names extra : list list_item) :
  forallb is_unit extra = true ->
  fst (_compose_sql_expression_of_relation_type r (cte_names ++ extra))
  = fst (_compose_sql_expression_of_relation_type r cte_names).
Proof.
  intros H. rewrite !compose_relation_lists. cbn [fst]. f_equal.
  destruct r as [name rid | |]; try reflexivity.
  cbn [top_table_units]. rewrite name_in_app, (name_in_units name extra H).
  rewrite orb_false_r. reflexivity.
Qed.

Lemma preprocess_one_ignores_units (cte_names extra : list list_item)
  (sds : list (list data_source)) (a : sql_analysis_result) :
  forallb is_unit extra = true ->
  fst (preprocess_one (cte_names ++ extra) sds a)
  = fst (preprocess_one cte_names sds a)
  /\ exists extra',
       snd (preprocess_one (cte_names ++ extra) sds a)
       = (cte_names ++ extra')%list
       /\ forallb is_unit extra' = true.
Proof.
  intros H. unfold preprocess_one.
  destruct (ar_relation a) as [r |].
  - pose proof (compose_ignores_units r cte_names extra H) as Hfst.
    pose proof (compose_relation_lists r (cte_names ++ extra)) as Hl.
    destruct (_compose_sql_expression_of_relation_type r (cte_names ++ extra))
      as [relation cte_names'].
    destruct (_compose_sql_expression_of_relation_type r cte_names)
      as [relation0 cte_names0].
    cbn [fst snd] in *. subst relation0. split; [reflexivity |].
    exists (extra ++ other_units r)%list.
    injection Hl as _ ->. rewrite app_assoc. split; [reflexivity |].
    rewrite forallb_app, H. apply own_units_are_units.
  - cbn [fst snd]. split; [reflexivity |]. exists extra.
    split; [reflexivity | exact H].
Qed.

Lemma preprocessor_as_map (sql_analysis_results : list sql_analysis_result)
  (cte_names : list list_item) (sds : list (list data_source)) :
  forall extra,
    forallb is_unit extra = true ->
    fst (SQLAnalysisPreprocessor_run (cte_names ++ extra) sds
           sql_analysis_results)
    = map (fun a => fst (preprocess_one cte_names sds a))
          (filter not_subquery_or_cte sql_analysis_results).
Proof.
  induction sql_analysis_results as [| a rest IH]; intros extra Hextra.
  - reflexivity.
  - cbn [SQLAnalysisPreprocessor_run filter]. unfold not_subquery_or_cte at 1.
    destruct (negb (Py.get_default (isSubqueryOrCte a) false));
      [| apply IH; exact Hextra].
    destruct (preprocess_one_ignores_units cte_names extra sds a Hextra)
      as [Hfst [extra' [Hsnd Hextra']]].
    destruct (preprocess_one (cte_names ++ extra) sds a)
      as [bundle cte_names'].
    cbn [fst snd] in Hfst, Hsnd. subst bundle cte_names'.
    specialize (IH extra' Hextra').
    destruct (SQLAnalysisPreprocessor_run (cte_names ++ extra') sds rest)
      as [bundles cte_names''].
    cbn [fst map] in *. rewrite IH. reflexivity.
Qed.

(** X10: the preprocessor returns, in order, one bundle for each
    analysis result that is not flagged [isSubqueryOrCte] (an absent flag
    counts as false), and each bundle is the one its analysis result
    would give on its own with the caller's CTE names: what the relation
    flattener leaves in the list for one result changes no later
    bundle. *)
Theorem preprocessor_bundles_independent
  (sql_analysis_results : list sql_analysis_result)
  (cte_names : list list_item) (sds : list (list data_source)) :
  fst (SQLAnalysisPreprocessor_run cte_names sds sql_analysis_results)
  = map (fun a => fst (preprocess_one cte_names sds a))
        (filter not_subquery_or_cte sql_analysis_results).
Proof.
  pose proof (preprocessor_as_map sql_analysis_results cte_names sds []
                eq_refl) as H.
  rewrite app_nil_r in H. exact H.
Qed.
